(** * Natural-language to SQL compiler (BusinessContextQueryNode)

    A shallow embedding of [business-context-query/index.ts]: the
    extractors, the SQL assembler [generateSQLFromNaturalLanguage] and the
    node entry point [handle], followed by the properties of the design
    document checked against them.

    Modelling conventions
    - JavaScript strings are [string]s of 8-bit characters; the question is
      taken to be ASCII text, and [toLowerCase] folds the letters A-Z and
      leaves every other character alone.
    - JavaScript numbers occurring in the program are non-negative integers,
      [Infinity] or [NaN]; they are the type [number] below, with
      [parseInt] rounding to the nearest IEEE-754 double (as V8 does) and
      [numberToString] following Number::toString of ECMA-262.
    - The three regular expressions of [extractLimit] are run by a small
      backtracking matcher with greedy [\d+] and leftmost match.
    - The mutable locals of [generateSQLFromNaturalLanguage] ([sql],
      [parameters], [matchedPatterns], [whereConditions]) are a record
      [Builder] passed from statement to statement.
    - [ctx.vars] is a finite map from names to values; [handle] threads the
      context explicitly and returns the updated context with its response;
      the exception it catches is the [Failure] response. *)

From Stdlib Require Import NArith Ascii String List Lia.
From stdpp Require Import base option list strings gmap.

Local Open Scope N_scope.

(* stdpp blocks the unfolding of string concatenation; the proofs below
   compute with it on literals. *)
Local Arguments String.append !_ _ / : simpl nomatch.

(** ** Strings *)

Module Str.

Definition chars (s : string) : list ascii := list_ascii_of_string s.
Definition ofChars (l : list ascii) : string := string_of_list_ascii l.

(** [s.startsWith(p)], returning the rest of [s] after [p]. *)
Fixpoint stripPrefix (p s : string) : option string :=
  match p with
  | EmptyString => Some s
  | String c p' =>
      match s with
      | EmptyString => None
      | String d s' => if Ascii.eqb c d then stripPrefix p' s' else None
      end
  end.

(** [s.includes(kw)]: [kw] occurs at some position of [s]. *)
Fixpoint includes (s kw : string) : bool :=
  match stripPrefix kw s with
  | Some _ => true
  | None =>
      match s with
      | EmptyString => false
      | String _ s' => includes s' kw
      end
  end.

Definition lowerChar (c : ascii) : ascii :=
  let n := N_of_ascii c in
  if (65 <=? n) && (n <=? 90) then ascii_of_N (n + 32) else c.

(** [s.toLowerCase()] on ASCII text. *)
Fixpoint toLowerCase (s : string) : string :=
  match s with
  | EmptyString => EmptyString
  | String c s' => String (lowerChar c) (toLowerCase s')
  end.

(** [l.join(sep)]. *)
Fixpoint join (sep : string) (l : list string) : string :=
  match l with
  | [] => ""
  | [x] => x
  | x :: l' => x +:+ sep +:+ join sep l'
  end.

(** [s.replace(a, b)] for one-character [a]: only the first occurrence
    is replaced. *)
Fixpoint replaceFirst (a : ascii) (b : string) (s : string) : string :=
  match s with
  | EmptyString => EmptyString
  | String c s' =>
      if Ascii.eqb c a then b +:+ s' else String c (replaceFirst a b s')
  end.

Definition isDigit (c : ascii) : bool :=
  let n := N_of_ascii c in (48 <=? n) && (n <=? 57).

Definition digitVal (c : ascii) : N := N_of_ascii c - 48.

Definition digitChar (d : N) : ascii := ascii_of_N (48 + d).

(** The longest prefix of [s] made of decimal digits, and what follows. *)
Fixpoint spanDigits (s : string) : string * string :=
  match s with
  | EmptyString => (EmptyString, EmptyString)
  | String c s' =>
      if isDigit c
      then let '(d, r) := spanDigits s' in (String c d, r)
      else (EmptyString, s)
  end.

Fixpoint take (n : nat) (s : string) : string :=
  match n, s with
  | S n', String c s' => String c (take n' s')
  | _, _ => EmptyString
  end.

Fixpoint drop (n : nat) (s : string) : string :=
  match n, s with
  | S n', String _ s' => drop n' s'
  | _, _ => s
  end.

Definition allDigits (s : string) : bool := forallb isDigit (chars s).

End Str.

(** ** Numbers *)

(** The numbers the node computes with: lengths, indices, the result of
    [parseInt] on a run of digits.  [Fin n] is the double of value [n]. *)
Inductive number : Type :=
| NaN
| Fin (n : N)
| Infinity.

Module Num.

(** Value of a run of decimal digits, most significant first. *)
Definition digitsValue (s : string) : N :=
  fold_left (fun acc c => 10 * acc + Str.digitVal c) (Str.chars s) 0.

(** The double nearest to the integer [n]: 53 significant bits, ties to
    the even significand, overflow to [Infinity]. *)
Definition toDouble (n : N) : number :=
  if n <? 2 ^ 53 then Fin n
  else
    let e := N.log2 n - 52 in
    let q := n / 2 ^ e in
    let r := n mod 2 ^ e in
    let half := 2 ^ (e - 1) in
    let q' :=
      if r <? half then q
      else if half <? r then q + 1
      else if N.even q then q else q + 1 in
    let v := q' * 2 ^ e in
    if 2 ^ 1024 <=? v then Infinity else Fin v.

(** [parseInt(s)] for an unsigned argument without leading blanks: the
    digits at the front of [s] are read in base ten, and there must be at
    least one. *)
Definition parseInt (s : string) : number :=
  let '(d, _) := Str.spanDigits s in
  match d with
  | EmptyString => NaN
  | _ => toDouble (digitsValue d)
  end.

(** Decimal digits of [n], least significant first. *)
Fixpoint digitsRev (fuel : nat) (n : N) : list ascii :=
  match fuel with
  | O => []
  | S f =>
      if n <? 10 then [Str.digitChar n]
      else Str.digitChar (n mod 10) :: digitsRev f (n / 10)
  end.

(** The decimal numeral of [n], without leading zeros. *)
Definition numeral (n : N) : string :=
  Str.ofChars (rev (digitsRev (S (N.to_nat (N.log2 n))) n)).

Definition numDigits (n : N) : nat :=
  length (digitsRev (S (N.to_nat (N.log2 n))) n).

Definition roundsTo (y x : N) : bool :=
  match toDouble y with
  | Fin v => v =? x
  | _ => false
  end.

(** The significand [s] with [k] digits such that [s * 10^(D-k)] rounds
    to [x], if there is one; of two, the nearer to [x], and the even one
    on a tie.  [D] is the number of digits of [x]. *)
Definition candidate (x : N) (D k : nat) : option N :=
  let p := 10 ^ N.of_nat (D - k) in
  let lo := x / p in
  let hi := lo + 1 in
  let okLo := roundsTo (lo * p) x in
  let okHi := roundsTo (hi * p) x && (hi <? 10 ^ N.of_nat k) in
  match okLo, okHi with
  | true, true =>
      let dLo := x - lo * p in
      let dHi := hi * p - x in
      if dLo <? dHi then Some lo
      else if dHi <? dLo then Some hi
      else if N.even lo then Some lo else Some hi
  | true, false => Some lo
  | false, true => Some hi
  | false, false => None
  end.

(** The least [k >= from] with a candidate, trying [fuel] values. *)
Fixpoint shortestFrom (x : N) (D : nat) (fuel from : nat) : option (nat * N) :=
  match fuel with
  | O => None
  | S f =>
      match candidate x D from with
      | Some s => Some (from, s)
      | None => shortestFrom x D f (S from)
      end
  end.

(** The integers [n], [k], [s] of Number::toString for a positive
    integer [x]: [s] has [k] digits, [s * 10^(n-k)] rounds to [x] and
    [k] is as small as possible. *)
Definition shortest (x : N) : nat * nat * N :=
  let D := numDigits x in
  if roundsTo (10 ^ N.of_nat D) x then (S D, 1%nat, 1)
  else
    match shortestFrom x D D 1 with
    | Some (k, s) => (D, k, s)
    | None => (D, D, x)
    end.

Fixpoint zeros (n : nat) : string :=
  match n with
  | O => ""
  | S n' => String "0" (zeros n')
  end.

(** Number::toString in radix ten. *)
Definition numberToString (v : number) : string :=
  match v with
  | NaN => "NaN"
  | Infinity => "Infinity"
  | Fin 0 => "0"
  | Fin x =>
      let '(n, k, s) := shortest x in
      if (n <=? 21)%nat then numeral s +:+ zeros (n - k)
      else
        let e := "e+" +:+ numeral (N.of_nat (n - 1)) in
        match numeral s with
        | String c EmptyString => String c e
        | String c rest => String c ("." +:+ rest) +:+ e
        | EmptyString => e
        end
  end.

(** [v > 0]. *)
Definition positive (v : number) : bool :=
  match v with
  | NaN => false
  | Fin n => 0 <? n
  | Infinity => true
  end.

End Num.

(** ** Regular expressions of [extractLimit] *)

(** The three patterns use literals, one captured run of digits [(\d+)]
    and one alternation of literals. *)
Inductive atom : Type :=
| Lit (s : string)
| CapDigits
| AltLit (alts : list string).

Definition regex : Type := list atom.

Module Regex.

Fixpoint firstSome {A B : Type} (f : A -> option B) (l : list A) : option B :=
  match l with
  | [] => None
  | x :: l' =>
      match f x with
      | Some y => Some y
      | None => firstSome f l'
      end
  end.

(** Lengths tried by a greedy [\d+] over a run of [n] digits. *)
Fixpoint greedy (n : nat) : list nat :=
  match n with
  | O => []
  | S n' => n :: greedy n'
  end.

(** Match [r] at the front of [s]; [cap] is group 1 so far. *)
Fixpoint matchHere (r : regex) (s : string) (cap : option string)
  : option (option string) :=
  match r with
  | [] => Some cap
  | Lit l :: r' =>
      match Str.stripPrefix l s with
      | Some s' => matchHere r' s' cap
      | None => None
      end
  | AltLit alts :: r' =>
      firstSome
        (fun l =>
           match Str.stripPrefix l s with
           | Some s' => matchHere r' s' cap
           | None => None
           end)
        alts
  | CapDigits :: r' =>
      let run := fst (Str.spanDigits s) in
      firstSome
        (fun n => matchHere r' (Str.drop n s) (Some (Str.take n s)))
        (greedy (String.length run))
  end.

(** [s.match(r)]: the leftmost match; the result is group 1 of it. *)
Fixpoint exec (r : regex) (s : string) : option (option string) :=
  match matchHere r s None with
  | Some cap => Some cap
  | None =>
      match s with
      | EmptyString => None
      | String _ s' => exec r s'
      end
  end.

End Regex.

(** ** Data model *)

Record ColumnInfo : Type := {
  column_name : string;
  data_type : string;
  is_nullable : bool;
  is_primary_key : bool
}.

Record TableInfo : Type := {
  table_name : string;
  table_type : string;
  columns : list ColumnInfo
}.

(** What the schema-discovery node stores under [database_schema]. *)
Record DatabaseSchema : Type := {
  schema_name : string;
  tables : list TableInfo;
  total_tables : N;
  discovery_timestamp : string
}.

(** Values held by [ctx.vars] ([any] in the source). *)
Inductive Value : Type :=
| VNull
| VBool (b : bool)
| VStr (s : string)
| VArr (l : list string)
| VSchema (s : DatabaseSchema).

Record DateRange : Type := {
  dr_type : string;
  dr_sql : string;
  dr_parameters : list string
}.

Record Aggregation : Type := {
  agg_type : string;
  agg_function : string
}.

Record Comparison : Type := {
  cmp_type : string;
  cmp_direction : string
}.

Record Components : Type := {
  department : option string;
  dateRange : DateRange;
  aggregation : Aggregation;
  metrics : list string;
  comparison : Comparison;
  limit : number
}.

Record GeneratedQuery : Type := {
  sql : string;
  parameters : list string;
  explanation : string;
  matched_patterns : list string;
  department_filter : option string;
  date_filter : string;
  aggregation_type : string
}.

Record BusinessQueryInput : Type := {
  query : string;
  in_department : option string;
  in_date_range : option string;
  in_debug : option bool
}.

(** JavaScript truthiness of an optional string: [undefined] and the empty
    string are falsy. *)
Definition truthy (o : option string) : bool :=
  match o with
  | Some s => negb (String.eqb s "")
  | None => false
  end.

Definition truthyValue (o : option Value) : bool :=
  match o with
  | None | Some VNull => false
  | Some (VBool b) => b
  | Some (VStr s) => negb (String.eqb s "")
  | Some (VArr _) | Some (VSchema _) => true
  end.

(** ** Extractors *)

Definition departmentPatterns : list (string * list string) :=
  [ ("sales", ["sales"; "revenue"; "pipeline"; "arr"; "deals"]);
    ("finance", ["finance"; "financial"; "cash"; "burn"; "runway"; "expenses"]);
    ("devrel", ["devrel"; "developer"; "github"; "community"; "twitter"; "discord"]);
    ("hr", ["hr"; "human resources"; "employee"; "hiring"; "turnover"; "satisfaction"]);
    ("events", ["events"; "conferences"; "meetups"; "attendees"; "signups"]);
    ("compliance", ["compliance"; "security"; "vulnerabilities"; "training"; "audit"]) ].

(** The loop of [extractDepartment] over [Object.entries]. *)
Fixpoint scanDepartments (query : string) (table : list (string * list string))
  : option string :=
  match table with
  | [] => None
  | (dept, keywords) :: rest =>
      if existsb (Str.includes query) keywords then Some dept
      else scanDepartments query rest
  end.

Definition extractDepartment (query : string) (explicitDept : option string)
  : option string :=
  if truthy explicitDept then explicitDept
  else scanDepartments query departmentPatterns.

Definition parseDateRange (range : string) : DateRange :=
  let rangeLower := Str.toLowerCase range in
  if String.eqb rangeLower "q4" then
    {| dr_type := "q4";
       dr_sql := "EXTRACT(QUARTER FROM m.metric_date) = 4";
       dr_parameters := [] |}
  else {| dr_type := "custom"; dr_sql := ""; dr_parameters := [] |}.

Definition extractDateRange (query : string) (explicitRange : option string)
  : DateRange :=
  if truthy explicitRange then parseDateRange (default "" explicitRange)
  else if Str.includes query "q4" || Str.includes query "fourth quarter" then
    {| dr_type := "q4";
       dr_sql := "EXTRACT(QUARTER FROM m.metric_date) = 4 AND EXTRACT(YEAR FROM m.metric_date) = EXTRACT(YEAR FROM CURRENT_DATE)";
       dr_parameters := [] |}
  else if Str.includes query "q1" || Str.includes query "first quarter" then
    {| dr_type := "q1";
       dr_sql := "EXTRACT(QUARTER FROM m.metric_date) = 1 AND EXTRACT(YEAR FROM m.metric_date) = EXTRACT(YEAR FROM CURRENT_DATE)";
       dr_parameters := [] |}
  else if Str.includes query "last month" then
    {| dr_type := "last_month";
       dr_sql := "m.metric_date >= DATE_TRUNC('month', CURRENT_DATE - INTERVAL '1 month') AND m.metric_date < DATE_TRUNC('month', CURRENT_DATE)";
       dr_parameters := [] |}
  else if Str.includes query "this month" then
    {| dr_type := "this_month";
       dr_sql := "m.metric_date >= DATE_TRUNC('month', CURRENT_DATE)";
       dr_parameters := [] |}
  else if Str.includes query "this year" then
    {| dr_type := "this_year";
       dr_sql := "EXTRACT(YEAR FROM m.metric_date) = EXTRACT(YEAR FROM CURRENT_DATE)";
       dr_parameters := [] |}
  else {| dr_type := "none"; dr_sql := ""; dr_parameters := [] |}.

Definition extractAggregation (query : string) : Aggregation :=
  if Str.includes query "total" || Str.includes query "sum" then
    {| agg_type := "sum"; agg_function := "SUM" |}
  else if Str.includes query "average" || Str.includes query "avg" then
    {| agg_type := "avg"; agg_function := "AVG" |}
  else if Str.includes query "count" || Str.includes query "number of" then
    {| agg_type := "count"; agg_function := "COUNT" |}
  else if Str.includes query "growth" || Str.includes query "trend" then
    {| agg_type := "growth"; agg_function := "SUM" |}
  else {| agg_type := "none"; agg_function := "" |}.

Definition metricPatterns : list (string * list string) :=
  [ ("pipeline", ["total_pipeline"; "channel_partner_pipeline"]);
    ("revenue", ["actual_arr"; "potential_arr"]);
    ("cash", ["cash_available"; "cash_burn_rate"]);
    ("satisfaction", ["employee_satisfaction"]);
    ("turnover", ["employee_turnover_rate"]);
    ("followers", ["twitter_followers"]);
    ("stars", ["github_stars"]) ].

(** The loop of [extractMetrics]: [foundMetrics] grows at its end. *)
Fixpoint scanMetrics (query : string) (table : list (string * list string))
  (foundMetrics : list string) : list string :=
  match table with
  | [] => foundMetrics
  | (keyword, ms) :: rest =>
      if Str.includes query keyword
      then scanMetrics query rest (foundMetrics ++ ms)
      else scanMetrics query rest foundMetrics
  end.

Definition extractMetrics (query : string) : list string :=
  scanMetrics query metricPatterns [].

Definition extractComparison (query : string) : Comparison :=
  if Str.includes query "top" || Str.includes query "best" || Str.includes query "highest" then
    {| cmp_type := "top"; cmp_direction := "DESC" |}
  else if Str.includes query "bottom" || Str.includes query "worst" || Str.includes query "lowest" then
    {| cmp_type := "bottom"; cmp_direction := "ASC" |}
  else {| cmp_type := "none"; cmp_direction := "" |}.

Definition limitPatterns : list regex :=
  [ [Lit "top "; CapDigits];
    [Lit "first "; CapDigits];
    [CapDigits; Lit " "; AltLit ["top"; "best"; "worst"]] ].

(** The words of the third pattern. *)
Definition rankWords : list string := ["top"; "best"; "worst"].

(** Occurrences of the numeric patterns in a question: pattern number [i]
    of [limitPatterns] occurs with the digits [d]. *)
Inductive numericPattern (q : string) : nat -> string -> Prop :=
| top_N (pre d post : string) :
    q = pre +:+ "top " +:+ d +:+ post ->
    Str.allDigits d = true -> d <> "" -> numericPattern q 0 d
| first_N (pre d post : string) :
    q = pre +:+ "first " +:+ d +:+ post ->
    Str.allDigits d = true -> d <> "" -> numericPattern q 1 d
| N_ranked (pre d w post : string) :
    q = pre +:+ d +:+ " " +:+ w +:+ post -> In w rankWords ->
    Str.allDigits d = true -> d <> "" -> numericPattern q 2 d.

(** [parseInt(match[1])]; a group that took no part is [undefined]. *)
Definition parseCapture (cap : option string) : number :=
  match cap with
  | Some d => Num.parseInt d
  | None => NaN
  end.

(** The loop of [extractLimit]: the first pattern with a match returns. *)
Fixpoint scanLimit (query : string) (patterns : list regex) : option number :=
  match patterns with
  | [] => None
  | pattern :: rest =>
      match Regex.exec pattern query with
      | Some cap => Some (parseCapture cap)
      | None => scanLimit query rest
      end
  end.

Definition extractLimit (query : string) : number :=
  match scanLimit query limitPatterns with
  | Some n => n
  | None =>
      if Str.includes query "top" || Str.includes query "best" then Fin 10
      else Fin 0
  end.

(** ** SQL assembly *)

Definition buildAggregationSelect (aggregation : Aggregation) : string :=
  if String.eqb (agg_type aggregation) "growth" then
    "d.name as department, m.metric_name, " +:+
    "AVG(m.monthly_change_percent) as growth_rate"
  else
    "d.name as department, m.metric_name, " +:+ agg_function aggregation +:+
    "(m.metric_value) as aggregated_value".

Definition buildGroupBy (aggregation : Aggregation) (includeDepartment : bool)
  : string :=
  if includeDepartment then " GROUP BY d.name, m.metric_name"
  else " GROUP BY m.metric_name".

Definition buildOrderBy (comparison : Comparison) (aggregation : Aggregation)
  : string :=
  if String.eqb (cmp_type comparison) "none" then " ORDER BY m.metric_date DESC"
  else
    let orderColumn :=
      if negb (String.eqb (agg_type aggregation) "none") then
        (if String.eqb (agg_type aggregation) "growth"
         then "growth_rate" else "aggregated_value")
      else "m.metric_value" in
    " ORDER BY " +:+ orderColumn +:+ " " +:+ cmp_direction comparison.

Definition generateExplanation (components : Components) (patterns : list string)
  : string :=
  let explanation := "Generated SQL query to " in
  let explanation :=
    if negb (String.eqb (agg_type (aggregation components)) "none")
    then explanation +:+ "calculate " +:+ agg_type (aggregation components) +:+ " of "
    else explanation +:+ "retrieve " in
  let explanation :=
    if (0 <? length (metrics components))%nat
    then explanation +:+ Str.join ", " (metrics components) +:+ " metrics"
    else explanation +:+ "metrics" in
  let explanation :=
    if truthy (department components)
    then explanation +:+ " for " +:+ default "" (department components) +:+ " department"
    else explanation in
  let explanation :=
    if negb (String.eqb (dr_type (dateRange components)) "none")
    then explanation +:+ " filtered by " +:+
         Str.replaceFirst "_" " " (dr_type (dateRange components))
    else explanation in
  let explanation :=
    if negb (String.eqb (cmp_type (comparison components)) "none")
    then explanation +:+ " showing " +:+ cmp_type (comparison components) +:+ " results"
    else explanation in
  explanation +:+ ". Matched patterns: " +:+ Str.join ", " patterns +:+ ".".

(** The variables [generateSQLFromNaturalLanguage] updates while it runs. *)
Record Builder : Type := {
  b_sql : string;
  b_parameters : list string;
  b_matched : list string;
  b_where : list string
}.

(** ["$" + n] for an array index or length [n]. *)
Definition placeholder (n : nat) : string :=
  "$" +:+ Num.numberToString (Fin (N.of_nat n)).

Module Assemble.

Definition start : Builder :=
  {| b_sql := "SELECT "; b_parameters := []; b_matched := []; b_where := [] |}.

Definition selectClause (c : Components) (b : Builder) : Builder :=
  if String.eqb (agg_type (aggregation c)) "none" then
    {| b_sql := b_sql b +:+ "d.name as department, m.metric_name, m.metric_value, m.metric_date";
       b_parameters := b_parameters b;
       b_matched := b_matched b ++ ["basic_selection"];
       b_where := b_where b |}
  else
    {| b_sql := b_sql b +:+ buildAggregationSelect (aggregation c);
       b_parameters := b_parameters b;
       b_matched := b_matched b ++ ["aggregation_" +:+ agg_type (aggregation c)];
       b_where := b_where b |}.

Definition fromClause (b : Builder) : Builder :=
  {| b_sql := (b_sql b +:+ " FROM metrics m") +:+
              " INNER JOIN departments d ON m.department_id = d.id";
     b_parameters := b_parameters b;
     b_matched := b_matched b;
     b_where := b_where b |}.

Definition departmentFilter (c : Components) (b : Builder) : Builder :=
  if truthy (department c) then
    {| b_sql := b_sql b;
       b_parameters := b_parameters b ++ [default "" (department c)];
       b_matched := b_matched b ++ ["department_filter"];
       b_where := b_where b ++ ["d.code = " +:+ placeholder (length (b_parameters b) + 1)] |}
  else b.

Definition dateFilter (c : Components) (b : Builder) : Builder :=
  if negb (String.eqb (dr_sql (dateRange c)) "") then
    {| b_sql := b_sql b;
       b_parameters := b_parameters b ++ dr_parameters (dateRange c);
       b_matched := b_matched b ++ ["date_filter_" +:+ dr_type (dateRange c)];
       b_where := b_where b ++ [dr_sql (dateRange c)] |}
  else b.

Definition metricFilter (c : Components) (b : Builder) : Builder :=
  if (0 <? length (metrics c))%nat then
    let metricPlaceholders :=
      Str.join ", "
        (imap (fun index _ => placeholder (length (b_parameters b) + index + 1))
              (metrics c)) in
    {| b_sql := b_sql b;
       b_parameters := b_parameters b ++ metrics c;
       b_matched := b_matched b ++ ["metric_filter"];
       b_where := b_where b ++ [("m.metric_name IN (" +:+ metricPlaceholders) +:+ ")"] |}
  else b.

Definition whereClause (b : Builder) : Builder :=
  if (0 <? length (b_where b))%nat then
    {| b_sql := b_sql b +:+ " WHERE " +:+ Str.join " AND " (b_where b);
       b_parameters := b_parameters b;
       b_matched := b_matched b;
       b_where := b_where b |}
  else b.

Definition groupByClause (c : Components) (b : Builder) : Builder :=
  if negb (String.eqb (agg_type (aggregation c)) "none") then
    {| b_sql := b_sql b +:+
                buildGroupBy (aggregation c)
                  (if truthy (department c) then false else true);
       b_parameters := b_parameters b;
       b_matched := b_matched b;
       b_where := b_where b |}
  else b.

Definition orderByClause (c : Components) (b : Builder) : Builder :=
  {| b_sql := b_sql b +:+ buildOrderBy (comparison c) (aggregation c);
     b_parameters := b_parameters b;
     b_matched :=
       if negb (String.eqb (cmp_type (comparison c)) "none")
       then b_matched b ++ ["comparison_" +:+ cmp_type (comparison c)]
       else b_matched b;
     b_where := b_where b |}.

Definition limitClause (c : Components) (b : Builder) : Builder :=
  if Num.positive (limit c) then
    {| b_sql := b_sql b +:+ " LIMIT " +:+ Num.numberToString (limit c);
       b_parameters := b_parameters b;
       b_matched := b_matched b ++ ["limit_results"];
       b_where := b_where b |}
  else b.

(** The statements of the body, in source order. *)
Definition run (c : Components) : Builder :=
  limitClause c
    (orderByClause c
       (groupByClause c
          (whereClause
             (metricFilter c
                (dateFilter c
                   (departmentFilter c
                      (fromClause
                         (selectClause c start)))))))).

End Assemble.

(** [x || undefined] *)
Definition orUndefined (o : option string) : option string :=
  if truthy o then o else None.

Definition extractComponents (queryLower : string)
  (departmentFilter dateRange_ : option string) : Components :=
  {| department := orUndefined (extractDepartment queryLower departmentFilter);
     dateRange := extractDateRange queryLower dateRange_;
     aggregation := extractAggregation queryLower;
     metrics := extractMetrics queryLower;
     comparison := extractComparison queryLower;
     limit := extractLimit queryLower |}.

Definition generateSQLFromNaturalLanguage (query : string) (dbSchema : Value)
  (departmentFilter dateRange_ : option string) (debug : bool) : GeneratedQuery :=
  let queryLower := Str.toLowerCase query in
  let components := extractComponents queryLower departmentFilter dateRange_ in
  let b := Assemble.run components in
  let explanation := generateExplanation components (b_matched b) in
  {| sql := b_sql b;
     parameters := b_parameters b;
     explanation := explanation;
     matched_patterns := b_matched b;
     department_filter := department components;
     date_filter := dr_type (dateRange components);
     aggregation_type := agg_type (aggregation components) |}.

Definition someSchema : Value :=
  VSchema {| schema_name := "public"; tables := []; total_tables := 0;
             discovery_timestamp := "" |}.

(** ** The node entry point *)

(** The part of the workflow context the node touches: [ctx.vars], which
    may be missing, next to the request it leaves alone. *)
Record Context : Type := {
  vars : option (gmap string Value);
  request : gmap string Value
}.

Record GlobalError : Type := {
  err_message : string;
  err_code : N;
  err_name : string
}.

Inductive Response : Type :=
| Success (data : GeneratedQuery)
| Failure (error : GlobalError).

(** [ctx.vars?.database_schema] *)
Definition lookupSchema (ctx : Context) : option Value :=
  match vars ctx with
  | Some vs => vs !! "database_schema"
  | None => None
  end.

(** [handle]: the context after the call and the response.  [name] is the
    node's registered name, used to label an error. *)
Definition handle (name : string) (ctx : Context) (inputs : BusinessQueryInput)
  : Context * Response :=
  let dbSchema := lookupSchema ctx in
  if negb (truthyValue dbSchema) then
    (ctx,
     Failure {| err_message :=
                  "Database schema not found. Please run schema-discovery node first.";
                err_code := 500;
                err_name := name |})
  else
    let generatedQuery :=
      generateSQLFromNaturalLanguage (query inputs) (default VNull dbSchema)
        (in_department inputs) (in_date_range inputs)
        (default false (in_debug inputs)) in
    let vs := match vars ctx with Some vs => vs | None => ∅ end in
    let vs := <["generated_query" := VStr (sql generatedQuery)]> vs in
    let vs := <["query_parameters" := VArr (parameters generatedQuery)]> vs in
    ({| vars := Some vs; request := request ctx |}, Success generatedQuery).

(** ** Reading the placeholders of a statement *)

Module Sql.

(** The numbers of the positional placeholders [$n] of a statement, in
    the order they occur in its text. *)
Fixpoint placeholders (s : string) : list N :=
  match s with
  | EmptyString => []
  | String c s' =>
      if Ascii.eqb c "$" then
        match fst (Str.spanDigits s') with
        | EmptyString => placeholders s'
        | d => Num.digitsValue d :: placeholders s'
        end
      else placeholders s'
  end.

(** A text without dollar sign. *)
Definition clean (s : string) : bool :=
  forallb (fun c => negb (Ascii.eqb c "$")) (Str.chars s).

Definition startsWithDigit (s : string) : bool :=
  match s with
  | String c _ => Str.isDigit c
  | EmptyString => false
  end.

(** [1; 2; ...; n] *)
Definition upTo (n : nat) : list N :=
  map N.of_nat (seq 1 n).

(** While the filters are collected: nothing in the statement yet, and
    the conditions hold the placeholders of the parameters so far. *)
Definition pending (b : Builder) : Prop :=
  clean (b_sql b) = true
  /\ concat (map placeholders (b_where b)) = upTo (length (b_parameters b))
  /\ (length (b_parameters b) <= 1)%nat.

(** Once the WHERE clause is written. *)
Definition settled (b : Builder) : Prop :=
  placeholders (b_sql b) = upTo (length (b_parameters b)).

(** What the extractors guarantee about the fragments they hand to the
    assembler. *)
Definition vetted (c : Components) : Prop :=
  dr_parameters (dateRange c) = []
  /\ clean (dr_sql (dateRange c)) = true
  /\ clean (agg_function (aggregation c)) = true
  /\ clean (cmp_direction (comparison c)) = true
  /\ (length (metrics c) <= 10)%nat.

(** The statement read clause by clause: the text each step of the
    assembler contributes. *)
Record Clauses : Type := {
  cl_select : string;
  cl_from : string;
  cl_where : string;
  cl_groupBy : string;
  cl_orderBy : string;
  cl_limit : string
}.

Definition render (cl : Clauses) : string :=
  cl_select cl +:+ cl_from cl +:+ cl_where cl +:+ cl_groupBy cl +:+
  cl_orderBy cl +:+ cl_limit cl.

Definition clausesOf (c : Components) : Clauses :=
  let filters :=
    Assemble.metricFilter c
      (Assemble.dateFilter c (Assemble.departmentFilter c Assemble.start)) in
  {| cl_select := b_sql (Assemble.selectClause c Assemble.start);
     cl_from := " FROM metrics m INNER JOIN departments d ON m.department_id = d.id";
     cl_where :=
       if (0 <? length (b_where filters))%nat
       then " WHERE " +:+ Str.join " AND " (b_where filters)
       else "";
     cl_groupBy :=
       if negb (String.eqb (agg_type (aggregation c)) "none")
       then buildGroupBy (aggregation c)
              (if truthy (department c) then false else true)
       else "";
     cl_orderBy := buildOrderBy (comparison c) (aggregation c);
     cl_limit :=
       if Num.positive (limit c)
       then " LIMIT " +:+ Num.numberToString (limit c)
       else "" |}.

(** The parameter a present department filter binds. *)
Definition departmentParameter (c : Components) : list string :=
  match department c with
  | Some d => [d]
  | None => []
  end.

(** The statement every unrecognised question compiles to. *)
Definition defaultQuery : string :=
  "SELECT d.name as department, m.metric_name, m.metric_value, m.metric_date FROM metrics m INNER JOIN departments d ON m.department_id = d.id ORDER BY m.metric_date DESC".

End Sql.

(** ** Questions without recognised vocabulary *)

(** What the extractors return when nothing matches. *)
Definition defaultComponents : Components :=
  {| department := None;
     dateRange := {| dr_type := "none"; dr_sql := ""; dr_parameters := [] |};
     aggregation := {| agg_type := "none"; agg_function := "" |};
     metrics := [];
     comparison := {| cmp_type := "none"; cmp_direction := "" |};
     limit := Fin 0 |}.

(** No rule of any extractor applies to the lower-cased question [q]. *)
Definition unmatched (q : string) : Prop :=
  scanDepartments q departmentPatterns = None
  /\ dr_type (extractDateRange q None) = "none"
  /\ agg_type (extractAggregation q) = "none"
  /\ extractMetrics q = []
  /\ cmp_type (extractComparison q) = "none"
  /\ scanLimit q limitPatterns = None.

(** ** Contexts used in the examples *)

Definition ctxWithSchema : Context :=
  {| vars := Some {[ "database_schema" := someSchema ]}; request := ∅ |}.

(** The same with the leftovers of an earlier request. *)
Definition ctxWithDebris : Context :=
  {| vars := Some (<["generated_query" := VStr "SELECT 1"]>
                     {[ "database_schema" := someSchema ]});
     request := ∅ |}.

Definition ctxWithoutVars : Context :=
  {| vars := None; request := ∅ |}.

Definition ask (q : string) : BusinessQueryInput :=
  {| query := q; in_department := None; in_date_range := None; in_debug := None |}.

Definition isFailure (r : Response) : Prop :=
  match r with
  | Failure _ => True
  | Success _ => False
  end.

Definition schemaMissing (name : string) : Response :=
  Failure {| err_message :=
               "Database schema not found. Please run schema-discovery node first.";
             err_code := 500;
             err_name := name |}.

(** [ctx.vars[k]] *)
Definition lookupVar (ctx : Context) (k : string) : option Value :=
  match vars ctx with
  | Some vs => vs !! k
  | None => None
  end.

(** ** Vocabulary *)

(** The keyword [kw] occurs in the text [s]. *)
Definition occursIn (kw s : string) : Prop :=
  exists pre post, s = pre +:+ kw +:+ post.

(** Pattern number [i] of [limitPatterns] occurs in [q] right after the
    prefix [pre], and [d] is the run of digits its group takes there: for
    [top N] and [first N] all the digits that follow the word, for
    [N top|best|worst] the digits from the start of the match to the blank. *)
Inductive capture (q : string) : nat -> string -> string -> Prop :=
| capture_top (pre d post : string) :
    q = pre +:+ "top " +:+ d +:+ post ->
    Str.allDigits d = true -> d <> "" -> Sql.startsWithDigit post = false ->
    capture q 0 pre d
| capture_first (pre d post : string) :
    q = pre +:+ "first " +:+ d +:+ post ->
    Str.allDigits d = true -> d <> "" -> Sql.startsWithDigit post = false ->
    capture q 1 pre d
| capture_ranked (pre d w post : string) :
    q = pre +:+ d +:+ " " +:+ w +:+ post -> In w rankWords ->
    Str.allDigits d = true -> d <> "" ->
    capture q 2 pre d.

(** The digits [d] that pattern [i] captures in [q]: those of its leftmost
    occurrence. *)
Definition limitCapture (q : string) (i : nat) (d : string) : Prop :=
  exists pre,
    capture q i pre d
    /\ forall pre' d', capture q i pre' d' ->
                       (String.length pre <= String.length pre')%nat.

(** Every metric name the compiler can bind, in the order of the table. *)
Definition metricVocabulary : list string :=
  concat (map snd metricPatterns).

(** The department codes the compiler can infer. *)
Definition departmentCodes : list string :=
  map fst departmentPatterns.

(** The components with the date range taken out. *)
Definition withoutDateRange (c : Components) : Components :=
  {| department := department c;
     dateRange := {| dr_type := "none"; dr_sql := ""; dr_parameters := [] |};
     aggregation := aggregation c;
     metrics := metrics c;
     comparison := comparison c;
     limit := limit c |}.

(** The tag of the SELECT clause in the pattern trail. *)
Definition selectionTag (c : Components) : string :=
  if String.eqb (agg_type (aggregation c)) "none" then "basic_selection"
  else "aggregation_" +:+ agg_type (aggregation c).

(** ** The database-config node *)

(** [DatabaseConfigNode.handle] of [database-config/index.ts].  The
    environment is a finite map of strings.  The port is a JavaScript
    number of any kind; the node only tests it for truth and obtains it
    from [parseInt], so the type of numbers, the test [!x] and [parseInt]
    are left open.  What the node prints on the console is not modelled. *)
Module DbConfig.

Section Node.

Variable Number : Type.
(** [x] is neither zero nor [NaN]. *)
Variable truthyNumber : Number -> bool.
Variable parseInt : string -> Number.

Record DatabaseConfigInput : Type := {
  database_name : option string;
  host_override : option string;
  port_override : option Number;
  validate_connection : option bool
}.

Record DatabaseConfig : Type := {
  host : string;
  port : Number;
  database : string;
  user : string;
  password : string;
  ssl : bool
}.

(** A slot of [ctx.vars]: the configuration, or a value of another node. *)
Inductive Slot : Type :=
| Config (c : DatabaseConfig)
| Other (v : Value).

Record NodeContext : Type := {
  cvars : option (gmap string Slot)
}.

Inductive Response : Type :=
| Success (data : DatabaseConfig)
| Failure (error : GlobalError).

(** [a || b] on strings. *)
Definition orElse (a : option string) (b : string) : string :=
  if truthy a then default "" a else b.

(** [process.env.KEY || fallback] *)
Definition envOr (env : gmap string string) (key fallback : string) : string :=
  orElse (env !! key) fallback.

Definition buildConfig (env : gmap string string) (inputs : DatabaseConfigInput)
  : DatabaseConfig :=
  {| host := orElse (host_override inputs) (envOr env "DB_HOST" "localhost");
     port :=
       match port_override inputs with
       | Some p =>
           if truthyNumber p then p else parseInt (envOr env "DB_PORT" "5432")
       | None => parseInt (envOr env "DB_PORT" "5432")
       end;
     database := orElse (database_name inputs) (envOr env "DB_NAME" "analytics_demo");
     user := envOr env "DB_USER" "postgres";
     password := envOr env "DB_PASSWORD" "";
     ssl :=
       match env !! "DB_SSL" with
       | Some v => String.eqb v "true"
       | None => false
       end |}.

Definition requiredFields : list string :=
  ["host"; "port"; "database"; "user"; "password"].

(** [config[field]] is truthy. *)
Definition fieldTruthy (config : DatabaseConfig) (field : string) : bool :=
  if String.eqb field "host" then negb (String.eqb (host config) "")
  else if String.eqb field "port" then truthyNumber (port config)
  else if String.eqb field "database" then negb (String.eqb (database config) "")
  else if String.eqb field "user" then negb (String.eqb (user config) "")
  else if String.eqb field "password" then negb (String.eqb (password config) "")
  else if String.eqb field "ssl" then ssl config
  else false.

(** The loop over [requiredFields]: the first field that is missing. *)
Fixpoint firstMissing (config : DatabaseConfig) (fields : list string)
  : option string :=
  match fields with
  | [] => None
  | field :: rest =>
      if negb (fieldTruthy config field) then Some field
      else firstMissing config rest
  end.

(** [validateDatabaseConnection]: the message of the error it throws, if
    it throws. *)
Definition validateDatabaseConnection (config : DatabaseConfig) : option string :=
  match firstMissing config requiredFields with
  | Some field =>
      Some ("Database connection validation failed: " +:+
            ("Database configuration missing required field: " +:+ field))
  | None => None
  end.

Definition failure (name message : string) : Response :=
  Failure {| err_message := message; err_code := 500; err_name := name |}.

Definition handle (name : string) (env : gmap string string) (ctx : NodeContext)
    (inputs : DatabaseConfigInput) : NodeContext * Response :=
  let config := buildConfig env inputs in
  if String.eqb (password config) "" then
    (ctx,
     failure name
       "Database password is required. Please set DB_PASSWORD environment variable.")
  else
    match (if default false (validate_connection inputs)
           then validateDatabaseConnection config else None) with
    | Some message => (ctx, failure name message)
    | None =>
        let vs := match cvars ctx with Some vs => vs | None => ∅ end in
        ({| cvars := Some (<["database_config" := Config config]> vs) |},
         Success {| host := host config;
                    port := port config;
                    database := database config;
                    user := user config;
                    password := "***CONFIGURED***";
                    ssl := ssl config |})
    end.

(** [ctx.vars[k]] *)
Definition slot (ctx : NodeContext) (k : string) : option Slot :=
  match cvars ctx with
  | Some vs => vs !! k
  | None => None
  end.

End Node.

End DbConfig.

(** ** Sanity checks on concrete inputs *)

Example numeral_1234 : Num.numeral 1234 = "1234".
Proof. reflexivity. Qed.

Example toString_5 : Num.numberToString (Fin 5) = "5".
Proof. vm_compute. reflexivity. Qed.

Example toString_1e21 :
  Num.numberToString (Num.parseInt "1000000000000000000000") = "1e+21".
Proof. vm_compute. reflexivity. Qed.

Example toString_big :
  Num.numberToString (Num.parseInt "12345678901234567890") = "12345678901234567000".
Proof. vm_compute. reflexivity. Qed.

Example toString_big2 :
  Num.numberToString (Num.parseInt "123456789012345678901234") = "1.2345678901234569e+23".
Proof. vm_compute. reflexivity. Qed.

Example exec_top : Regex.exec [Lit "top "; CapDigits] "our top 25 deals" = Some (Some "25").
Proof. reflexivity. Qed.

Example exec_suffix :
  Regex.exec [CapDigits; Lit " "; AltLit ["top"; "best"; "worst"]] "12 34 worst" = Some (Some "34").
Proof. reflexivity. Qed.

Example extractLimit_top5 : extractLimit "show me our top 5 departments" = Fin 5.
Proof. vm_compute. reflexivity. Qed.

Example extractDepartment_pipeline :
  extractDepartment "show me pipeline and arr data" None = Some "sales".
Proof. vm_compute. reflexivity. Qed.

Example sql_top5 :
  sql (generateSQLFromNaturalLanguage "Show me our top 5 departments" someSchema None None false)
  = "SELECT d.name as department, m.metric_name, m.metric_value, m.metric_date FROM metrics m INNER JOIN departments d ON m.department_id = d.id ORDER BY m.metric_value DESC LIMIT 5".
Proof. vm_compute. reflexivity. Qed.

Example sql_total_pipeline :
  generateSQLFromNaturalLanguage "total pipeline this year" someSchema None None false
  = {| sql := "SELECT d.name as department, m.metric_name, SUM(m.metric_value) as aggregated_value FROM metrics m INNER JOIN departments d ON m.department_id = d.id WHERE d.code = $1 AND EXTRACT(YEAR FROM m.metric_date) = EXTRACT(YEAR FROM CURRENT_DATE) AND m.metric_name IN ($2, $3) GROUP BY m.metric_name ORDER BY m.metric_date DESC";
       parameters := ["sales"; "total_pipeline"; "channel_partner_pipeline"];
       explanation := "Generated SQL query to calculate sum of total_pipeline, channel_partner_pipeline metrics for sales department filtered by this year. Matched patterns: aggregation_sum, department_filter, date_filter_this_year, metric_filter.";
       matched_patterns := ["aggregation_sum"; "department_filter"; "date_filter_this_year"; "metric_filter"];
       department_filter := Some "sales";
       date_filter := "this_year";
       aggregation_type := "sum" |}.
Proof. vm_compute. reflexivity. Qed.

(** * Properties *)

(** ** Strings *)

Lemma app_assoc_s (a b c : string) : (a +:+ b) +:+ c = a +:+ (b +:+ c).
Proof. induction a as [|x a IH]; cbn; [reflexivity | now rewrite IH]. Qed.

Lemma app_nil_r_s (a : string) : a +:+ "" = a.
Proof. induction a as [|x a IH]; cbn; [reflexivity | now rewrite IH]. Qed.

Lemma chars_app (a b : string) : Str.chars (a +:+ b) = Str.chars a ++ Str.chars b.
Proof.
  unfold Str.chars. induction a as [|x a IH]; cbn; [reflexivity | now rewrite IH].
Qed.

Lemma ofChars_app (l1 l2 : list ascii) :
  Str.ofChars (l1 ++ l2) = Str.ofChars l1 +:+ Str.ofChars l2.
Proof.
  unfold Str.ofChars. induction l1 as [|x l1 IH]; cbn; [reflexivity | now rewrite IH].
Qed.

Lemma chars_ofChars (l : list ascii) : Str.chars (Str.ofChars l) = l.
Proof. apply list_ascii_of_string_of_list_ascii. Qed.

(** ** Decimal numerals *)

Lemma digitChar_isDigit (d : N) : d < 10 -> Str.isDigit (Str.digitChar d) = true.
Proof.
  intros H.
  assert (d = 0 \/ d = 1 \/ d = 2 \/ d = 3 \/ d = 4 \/ d = 5 \/ d = 6 \/ d = 7
          \/ d = 8 \/ d = 9) as Hd by lia.
  repeat (destruct Hd as [-> | Hd]; [reflexivity |]). now subst.
Qed.

Lemma digitVal_digitChar (d : N) : d < 10 -> Str.digitVal (Str.digitChar d) = d.
Proof.
  intros H.
  assert (d = 0 \/ d = 1 \/ d = 2 \/ d = 3 \/ d = 4 \/ d = 5 \/ d = 6 \/ d = 7
          \/ d = 8 \/ d = 9) as Hd by lia.
  repeat (destruct Hd as [-> | Hd]; [reflexivity |]). now subst.
Qed.

Lemma pow10_succ (f : nat) : 10 ^ N.of_nat (S f) = 10 * 10 ^ N.of_nat f.
Proof. rewrite Nat2N.inj_succ. apply N.pow_succ_r'. Qed.

Lemma div10_lt (n b : N) : n < 10 * b -> n / 10 < b.
Proof. intros H. apply N.Div0.div_lt_upper_bound. exact H. Qed.

Lemma digitsRev_S (f : nat) (n : N) :
  Num.digitsRev (S f) n =
  if n <? 10 then [Str.digitChar n]
  else Str.digitChar (n mod 10) :: Num.digitsRev f (n / 10).
Proof. reflexivity. Qed.

Lemma digitsRev_fuel (f1 : nat) :
  forall (f2 : nat) (n : N),
    n < 10 ^ N.of_nat (S f1) -> n < 10 ^ N.of_nat (S f2) ->
    Num.digitsRev (S f1) n = Num.digitsRev (S f2) n.
Proof.
  induction f1 as [|f1 IH]; intros f2 n H1 H2.
  - change (10 ^ N.of_nat 1) with 10 in H1.
    cbn [Num.digitsRev]. apply N.ltb_lt in H1. now rewrite H1.
  - cbn [Num.digitsRev]. destruct (n <? 10) eqn:E; [reflexivity |].
    apply N.ltb_ge in E.
    destruct f2 as [|f2].
    { change (10 ^ N.of_nat 1) with 10 in H2. lia. }
    f_equal. apply IH.
    + apply div10_lt. now rewrite <- pow10_succ.
    + apply div10_lt. now rewrite <- pow10_succ.
Qed.

Lemma fuel_enough (n : N) : n < 10 ^ N.of_nat (S (N.to_nat (N.log2 n))).
Proof.
  rewrite Nat2N.inj_succ, N2Nat.id.
  destruct (N.eq_dec n 0) as [-> | Hn]; [reflexivity |].
  apply N.lt_le_trans with (2 ^ N.succ (N.log2 n)).
  - apply N.log2_spec. lia.
  - apply N.pow_le_mono_l. lia.
Qed.

Lemma digitsRev_digits (f : nat) :
  forall n, forallb Str.isDigit (Num.digitsRev f n) = true.
Proof.
  induction f as [|f IH]; intros n; [reflexivity |].
  cbn [Num.digitsRev]. destruct (n <? 10) eqn:E.
  - apply N.ltb_lt in E. cbn [forallb]. now rewrite digitChar_isDigit.
  - cbn [forallb]. rewrite IH, digitChar_isDigit; [reflexivity |].
    apply N.mod_lt. discriminate.
Qed.

Lemma forallb_reverse {A : Type} (f : A -> bool) (l : list A) :
  forallb f (rev l) = forallb f l.
Proof.
  induction l as [|x l IH]; [reflexivity |].
  cbn [rev forallb]. rewrite forallb_app, IH. cbn [forallb].
  rewrite andb_true_r. apply andb_comm.
Qed.

Lemma numeral_allDigits (n : N) : Str.allDigits (Num.numeral n) = true.
Proof.
  unfold Str.allDigits, Num.numeral. rewrite chars_ofChars, forallb_reverse.
  apply digitsRev_digits.
Qed.

Lemma numeral_mul10 (n : N) : 0 < n -> Num.numeral (10 * n) = Num.numeral n +:+ "0".
Proof.
  intros Hn. unfold Num.numeral.
  pose proof (fuel_enough (10 * n)) as Hf.
  remember (N.to_nat (N.log2 (10 * n))) as F eqn:HF.
  cbn [Num.digitsRev].
  destruct (10 * n <? 10) eqn:E; [apply N.ltb_lt in E; lia |].
  replace (10 * n / 10) with n by (rewrite N.mul_comm, N.div_mul; lia).
  replace ((10 * n) mod 10) with 0 by (rewrite N.mul_comm, N.Div0.mod_mul; lia).
  rewrite pow10_succ in Hf.
  assert (n < 10 ^ N.of_nat F) as Hn' by lia.
  destruct F as [|F].
  { change (10 ^ N.of_nat 0) with 1 in Hn'. lia. }
  rewrite (digitsRev_fuel F (N.to_nat (N.log2 n)) n Hn' (fuel_enough n)).
  cbn [rev]. rewrite ofChars_app. reflexivity.
Qed.

Lemma numeral_shift (j : nat) :
  forall s, 0 < s -> Num.numeral (s * 10 ^ N.of_nat j) = Num.numeral s +:+ Num.zeros j.
Proof.
  induction j as [|j IH]; intros s Hs.
  - change (10 ^ N.of_nat 0) with 1. rewrite N.mul_1_r. cbn [Num.zeros].
    now rewrite app_nil_r_s.
  - rewrite pow10_succ.
    replace (s * (10 * 10 ^ N.of_nat j)) with ((10 * s) * 10 ^ N.of_nat j) by lia.
    rewrite IH by lia. rewrite numeral_mul10 by exact Hs.
    rewrite app_assoc_s. reflexivity.
Qed.

Lemma numDigits_bounds (f : nat) :
  forall n, n < 10 ^ N.of_nat (S f) ->
    let L := length (Num.digitsRev (S f) n) in
    n < 10 ^ N.of_nat L /\ (0 < n -> 10 ^ N.of_nat (L - 1) <= n) /\ (1 <= L)%nat.
Proof.
  induction f as [|f IH]; intros n H.
  - change (10 ^ N.of_nat 1) with 10 in H.
    cbn [Num.digitsRev]. apply N.ltb_lt in H. rewrite H. cbn.
    apply N.ltb_lt in H. repeat split; lia.
  - rewrite digitsRev_S. destruct (n <? 10) eqn:E.
    + apply N.ltb_lt in E. cbn. repeat split; lia.
    + apply N.ltb_ge in E.
      assert (n / 10 < 10 ^ N.of_nat (S f)) as Hq
        by (apply div10_lt; now rewrite <- pow10_succ).
      specialize (IH (n / 10) Hq). cbn zeta in IH.
      destruct IH as (Hlt & Hge & Hone).
      cbn [length]. cbn zeta.
      set (L := length (Num.digitsRev (S f) (n / 10))) in *. clearbody L.
      assert (0 < n / 10) as Hpos.
      { apply N.div_str_pos. lia. }
      specialize (Hge Hpos).
      pose proof (N.Div0.div_mod n 10) as Hdm.
      pose proof (N.mod_lt n 10 ltac:(discriminate)) as Hm.
      repeat split.
      * rewrite pow10_succ. lia.
      * intros _. replace (S L - 1)%nat with (S (L - 1)) by lia.
        rewrite pow10_succ. clear - Hge Hdm Hm.
        generalize dependent (10 ^ N.of_nat (L - 1)).
        generalize dependent (n / 10). generalize dependent (n mod 10).
        intros. lia.
      * lia.
Qed.

Lemma numDigits_spec (x : N) :
  0 < x ->
  10 ^ N.of_nat (Num.numDigits x - 1) <= x < 10 ^ N.of_nat (Num.numDigits x).
Proof.
  intros Hx. unfold Num.numDigits.
  destruct (numDigits_bounds _ x (fuel_enough x)) as (H1 & H2 & _).
  split; [apply H2; exact Hx | exact H1].
Qed.

(** ** Doubles *)

Lemma toDouble_small (n : N) : n < 2 ^ 53 -> Num.toDouble n = Fin n.
Proof.
  intros H. unfold Num.toDouble. apply N.ltb_lt in H. now rewrite H.
Qed.

Lemma toDouble_large (n : N) :
  2 ^ 53 <= n ->
  match Num.toDouble n with
  | Fin v => 2 ^ 53 <= v
  | Infinity => True
  | NaN => False
  end.
Proof.
  intros H. unfold Num.toDouble.
  destruct (n <? 2 ^ 53) eqn:E; [apply N.ltb_lt in E; lia |].
  cbv zeta.
  set (e := N.log2 n - 52).
  set (q := n / 2 ^ e).
  set (q' := if n mod 2 ^ e <? 2 ^ (e - 1) then q
             else if 2 ^ (e - 1) <? n mod 2 ^ e then q + 1
             else if N.even q then q else q + 1).
  destruct (2 ^ 1024 <=? q' * 2 ^ e); [exact I |].
  assert (53 <= N.log2 n) as Hlog.
  { rewrite <- (N.log2_pow2 53) by lia. apply N.log2_le_mono. exact H. }
  assert (2 ^ N.log2 n <= n) as Hspec by (apply N.log2_spec; lia).
  assert (N.log2 n = 52 + e) as He by (unfold e; lia).
  assert (2 ^ N.log2 n = 2 ^ 52 * 2 ^ e) as Hsplit
    by (rewrite He; apply N.pow_add_r).
  assert (2 ^ e <> 0) as Hnz by (apply N.pow_nonzero; discriminate).
  assert (2 ^ 52 <= q) as Hq.
  { unfold q. apply N.div_le_lower_bound; [exact Hnz |].
    rewrite N.mul_comm, <- Hsplit. exact Hspec. }
  assert (q <= q') as Hq'.
  { unfold q'. repeat match goal with |- context [if ?b then _ else _] => destruct b end; lia. }
  assert (2 <= 2 ^ e) as H2.
  { replace e with (N.succ (e - 1)) by lia. rewrite N.pow_succ_r'.
    assert (0 < 2 ^ (e - 1)) by (apply N.neq_0_lt_0, N.pow_nonzero; discriminate).
    lia. }
  change (2 ^ 53) with (2 ^ 52 * 2).
  apply N.mul_le_mono; lia.
Qed.

Lemma roundsTo_small (y x : N) :
  x < 2 ^ 53 -> Num.roundsTo y x = true -> y = x.
Proof.
  intros Hx. unfold Num.roundsTo.
  destruct (N.lt_ge_cases y (2 ^ 53)) as [Hy | Hy].
  - rewrite toDouble_small by exact Hy. intros E. now apply N.eqb_eq in E.
  - pose proof (toDouble_large y Hy) as Hl.
    destruct (Num.toDouble y) as [|v|]; try discriminate.
    intros E. apply N.eqb_eq in E. subst v. lia.
Qed.

Lemma candidate_sound (x : N) (D k : nat) (s : N) :
  Num.candidate x D k = Some s ->
  Num.roundsTo (s * 10 ^ N.of_nat (D - k)) x = true.
Proof.
  unfold Num.candidate. cbv zeta.
  set (p := 10 ^ N.of_nat (D - k)).
  destruct (Num.roundsTo (x / p * p) x) eqn:ELo;
    destruct (Num.roundsTo ((x / p + 1) * p) x) eqn:EHi; cbn [andb];
    repeat match goal with
      | |- context [if ?b then _ else _] => destruct b
      end;
    intros [= <-]; assumption || discriminate.
Qed.

Lemma shortestFrom_sound (x : N) (D : nat) (fuel : nat) :
  forall from k s,
    Num.shortestFrom x D fuel from = Some (k, s) ->
    Num.candidate x D k = Some s.
Proof.
  induction fuel as [|fuel IH]; intros from k s; cbn [Num.shortestFrom];
    [discriminate |].
  destruct (Num.candidate x D from) as [s'|] eqn:E.
  - intros [= <- <-]. exact E.
  - apply IH.
Qed.

Lemma shortest_small (x : N) :
  0 < x -> x < 2 ^ 53 ->
  exists k s, Num.shortest x = (Num.numDigits x, k, s)
              /\ s * 10 ^ N.of_nat (Num.numDigits x - k) = x.
Proof.
  intros Hpos Hx. unfold Num.shortest. cbv zeta.
  destruct (numDigits_spec x Hpos) as [_ Hlt].
  destruct (Num.roundsTo (10 ^ N.of_nat (Num.numDigits x)) x) eqn:E.
  { apply roundsTo_small in E; [lia | exact Hx]. }
  destruct (Num.shortestFrom x (Num.numDigits x) (Num.numDigits x) 1)
    as [[k s]|] eqn:Es.
  - exists k, s. split; [reflexivity |].
    apply roundsTo_small; [exact Hx |].
    eapply candidate_sound, shortestFrom_sound, Es.
  - exists (Num.numDigits x), x. split; [reflexivity |].
    rewrite Nat.sub_diag. change (10 ^ N.of_nat 0) with 1. lia.
Qed.

(** Below 2^53 a number prints as its decimal numeral. *)
Lemma numberToString_small (x : N) :
  x < 2 ^ 53 -> Num.numberToString (Fin x) = Num.numeral x.
Proof.
  intros Hx. destruct x as [|p]; [reflexivity |].
  assert (0 < N.pos p) as Hpos by lia.
  destruct (shortest_small _ Hpos Hx) as (k & s & Hs & Hval).
  unfold Num.numberToString. rewrite Hs.
  destruct (numDigits_spec _ Hpos) as [Hlo _].
  assert (Num.numDigits (N.pos p) <= 21)%nat as HD.
  { destruct (le_lt_dec (Num.numDigits (N.pos p)) 21) as [|Hgt]; [assumption |].
    exfalso.
    assert (10 ^ 21 <= 10 ^ N.of_nat (Num.numDigits (N.pos p) - 1)) as Hp
      by (apply N.pow_le_mono_r; lia).
    assert (2 ^ 53 < 10 ^ 21) as Hc by reflexivity.
    lia. }
  apply Nat.leb_le in HD. rewrite HD.
  rewrite <- numeral_shift.
  - now rewrite Hval.
  - destruct s; [rewrite N.mul_0_l in Hval; discriminate | lia].
Qed.

(** ** Placeholders of a concatenation *)

Lemma clean_app (a b : string) : Sql.clean (a +:+ b) = Sql.clean a && Sql.clean b.
Proof. unfold Sql.clean. rewrite chars_app. apply forallb_app. Qed.

Lemma isDigit_not_dollar (c : ascii) : Str.isDigit c = true -> Ascii.eqb c "$" = false.
Proof.
  intros H. destruct (Ascii.eqb_spec c "$") as [-> |]; [discriminate H | reflexivity].
Qed.

Lemma allDigits_clean (s : string) : Str.allDigits s = true -> Sql.clean s = true.
Proof.
  unfold Str.allDigits, Sql.clean. induction (Str.chars s) as [|c l IH]; [reflexivity |].
  cbn [forallb]. intros H. apply andb_prop in H as [Hc Hl].
  rewrite (isDigit_not_dollar c Hc), IH by exact Hl. reflexivity.
Qed.

Lemma zeros_allDigits (n : nat) : Str.allDigits (Num.zeros n) = true.
Proof. induction n as [|n IH]; [reflexivity | exact IH]. Qed.

Lemma numberToString_clean (v : number) : Sql.clean (Num.numberToString v) = true.
Proof.
  destruct v as [|[|p]|]; try reflexivity.
  unfold Num.numberToString.
  destruct (Num.shortest (N.pos p)) as [[n k] s].
  pose proof (allDigits_clean _ (numeral_allDigits s)) as Hs.
  pose proof (allDigits_clean _ (numeral_allDigits (N.of_nat (n - 1)))) as He.
  destruct (n <=? 21)%nat.
  - rewrite clean_app, Hs. apply allDigits_clean, zeros_allDigits.
  - assert (Sql.clean ("e+" +:+ Num.numeral (N.of_nat (n - 1))) = true) as Hexp
      by (rewrite clean_app, He; reflexivity).
    destruct (Num.numeral s) as [|c [|c' rest]].
    + exact Hexp.
    + change (String c ("e+" +:+ Num.numeral (N.of_nat (n - 1))))
        with (String c "" +:+ ("e+" +:+ Num.numeral (N.of_nat (n - 1)))).
      now rewrite clean_app, Hs, Hexp.
    + change (String c ("." +:+ String c' rest))
        with ((String c "" +:+ ".") +:+ String c' rest).
      rewrite !clean_app, He.
      change (String c (String c' rest)) with (String c "" +:+ String c' rest) in Hs.
      rewrite clean_app in Hs. apply andb_prop in Hs as [-> ->]. reflexivity.
Qed.

Lemma placeholders_clean (a : string) :
  Sql.clean a = true -> Sql.placeholders a = [].
Proof.
  unfold Sql.clean. induction a as [|c a IH]; [reflexivity |].
  cbn [Str.chars list_ascii_of_string forallb]. intros H.
  apply andb_prop in H as [Hc Ha]. cbn [Sql.placeholders].
  destruct (Ascii.eqb c "$"); [discriminate Hc |]. apply IH, Ha.
Qed.

Lemma spanDigits_app (a b : string) :
  Sql.startsWithDigit b = false ->
  fst (Str.spanDigits (a +:+ b)) = fst (Str.spanDigits a).
Proof.
  intros Hb. induction a as [|c a IH].
  - cbn. destruct b as [|d b]; [reflexivity |].
    cbn in Hb |- *. now rewrite Hb.
  - change (String c a +:+ b) with (String c (a +:+ b)). cbn [Str.spanDigits].
    destruct (Str.isDigit c); [| reflexivity].
    destruct (Str.spanDigits (a +:+ b)), (Str.spanDigits a).
    cbn in IH |- *. now rewrite IH.
Qed.

Lemma placeholders_app (a b : string) :
  Sql.startsWithDigit b = false ->
  Sql.placeholders (a +:+ b) = Sql.placeholders a ++ Sql.placeholders b.
Proof.
  intros Hb. induction a as [|c a IH]; [reflexivity |].
  change (String c a +:+ b) with (String c (a +:+ b)). cbn [Sql.placeholders].
  rewrite IH, (spanDigits_app a b Hb).
  destruct (Ascii.eqb c "$"); [| reflexivity].
  destruct (fst (Str.spanDigits a)); reflexivity.
Qed.

Lemma placeholders_skip (a b : string) :
  Sql.clean a = true -> Sql.placeholders (a +:+ b) = Sql.placeholders b.
Proof.
  unfold Sql.clean. induction a as [|c a IH]; [reflexivity |].
  cbn [Str.chars list_ascii_of_string forallb]. intros H.
  apply andb_prop in H as [Hc Ha].
  change (String c a +:+ b) with (String c (a +:+ b)). cbn [Sql.placeholders].
  destruct (Ascii.eqb c "$"); [discriminate Hc |]. apply IH, Ha.
Qed.

Lemma spanDigits_allDigits (d : string) :
  Str.allDigits d = true -> fst (Str.spanDigits d) = d.
Proof.
  unfold Str.allDigits. induction d as [|c d IH]; [reflexivity |].
  cbn [Str.chars list_ascii_of_string forallb Str.spanDigits]. intros H.
  apply andb_prop in H as [Hc Hd]. rewrite Hc.
  specialize (IH Hd). destruct (Str.spanDigits d). cbn in IH |- *. now rewrite IH.
Qed.

Lemma digitsValue_digitsRev (f : nat) :
  forall n, n < 10 ^ N.of_nat (S f) ->
    fold_right (fun c acc => 10 * acc + Str.digitVal c) 0 (Num.digitsRev (S f) n) = n.
Proof.
  induction f as [|f IH]; intros n H.
  - change (10 ^ N.of_nat 1) with 10 in H. rewrite digitsRev_S.
    pose proof H as H'. apply N.ltb_lt in H'. rewrite H'. cbn [fold_right].
    rewrite digitVal_digitChar by exact H. lia.
  - rewrite digitsRev_S. destruct (n <? 10) eqn:E.
    + apply N.ltb_lt in E. cbn [fold_right].
      rewrite digitVal_digitChar by exact E. lia.
    + cbn [fold_right]. rewrite IH by (apply div10_lt; now rewrite <- pow10_succ).
      pose proof (N.mod_lt n 10 ltac:(discriminate)) as Hm.
      rewrite digitVal_digitChar by exact Hm.
      pose proof (N.Div0.div_mod n 10) as Hdm.
      generalize dependent (n / 10). generalize dependent (n mod 10).
      intros. lia.
Qed.

Lemma digitsValue_numeral (n : N) : Num.digitsValue (Num.numeral n) = n.
Proof.
  unfold Num.digitsValue, Num.numeral. rewrite chars_ofChars.
  rewrite <- fold_left_rev_right, rev_involutive.
  apply digitsValue_digitsRev, fuel_enough.
Qed.

Lemma numeral_nonempty (n : N) : Num.numeral n <> "".
Proof.
  intros E. apply (f_equal Str.chars) in E. unfold Num.numeral in E.
  rewrite chars_ofChars, digitsRev_S in E.
  destruct (n <? 10); cbn [rev] in E; apply app_eq_nil in E as [_ E];
    discriminate E.
Qed.

(** A placeholder in front of a text that does not go on with a digit. *)
Lemma placeholders_placeholder (n : nat) (rest : string) :
  N.of_nat n < 2 ^ 53 ->
  Sql.startsWithDigit rest = false ->
  Sql.placeholders (placeholder n +:+ rest) = N.of_nat n :: Sql.placeholders rest.
Proof.
  intros Hn Hrest. unfold placeholder.
  rewrite numberToString_small by exact Hn.
  change (("$" +:+ Num.numeral (N.of_nat n)) +:+ rest)
    with (String "$" (Num.numeral (N.of_nat n) +:+ rest)).
  cbn [Sql.placeholders]. change (Ascii.eqb "$" "$") with true. cbv iota.
  rewrite (spanDigits_app _ _ Hrest),
    (spanDigits_allDigits _ (numeral_allDigits _)).
  rewrite (placeholders_skip _ _ (allDigits_clean _ (numeral_allDigits _))).
  destruct (Num.numeral (N.of_nat n)) eqn:E; [now apply numeral_nonempty in E |].
  rewrite <- E, digitsValue_numeral. reflexivity.
Qed.

(** ** Placeholder parity of the assembler *)

Lemma upTo_app (n m : nat) :
  Sql.upTo (n + m) = Sql.upTo n ++ map N.of_nat (seq (n + 1) m).
Proof.
  unfold Sql.upTo. rewrite seq_app, map_app. do 3 f_equal. lia.
Qed.

Lemma placeholders_join_and (l : list string) :
  Sql.placeholders (Str.join " AND " l) = concat (map Sql.placeholders l).
Proof.
  induction l as [|x l IH]; [reflexivity |].
  destruct l as [|y l].
  - cbn. now rewrite app_nil_r.
  - change (Str.join " AND " (x :: y :: l))
      with (x +:+ " AND " +:+ Str.join " AND " (y :: l)).
    rewrite placeholders_app by reflexivity.
    rewrite (placeholders_skip " AND ") by reflexivity.
    rewrite IH. reflexivity.
Qed.

Lemma placeholders_tail (s t : string) :
  Sql.clean t = true -> Sql.startsWithDigit t = false ->
  Sql.placeholders (s +:+ t) = Sql.placeholders s.
Proof.
  intros Hc Hd. rewrite placeholders_app by exact Hd.
  rewrite (placeholders_clean t Hc). apply app_nil_r.
Qed.

Lemma small_index (n : nat) : (n <= 20)%nat -> N.of_nat n < 2 ^ 53.
Proof.
  intros H. apply N.le_lt_trans with 20; [lia | reflexivity].
Qed.

(** The list of placeholders written for the metric names. *)
Lemma placeholders_metricList (ms : list string) :
  forall (base : nat) (rest : string),
    (base + length ms <= 20)%nat ->
    Sql.startsWithDigit rest = false ->
    Sql.placeholders
      (Str.join ", " (imap (fun index _ => placeholder (base + index + 1)) ms) +:+ rest)
    = map N.of_nat (seq (base + 1) (length ms)) ++ Sql.placeholders rest.
Proof.
  induction ms as [|m ms IH]; intros base rest Hb Hrest; [reflexivity |].
  cbn [length] in Hb. cbn [imap length seq map].
  replace (base + 0 + 1)%nat with (base + 1)%nat by lia.
  destruct ms as [|m' ms].
  - cbn [imap Str.join length seq map app].
    apply placeholders_placeholder; [apply small_index; lia | exact Hrest].
  - specialize (IH (S base) rest).
    cbn [length] in IH, Hb.
    assert (imap ((fun index _ => placeholder (base + index + 1)) ∘ S) (m' :: ms)
            = imap (fun index (_ : string) => placeholder (S base + index + 1)) (m' :: ms))
      as Himap.
    { apply imap_ext. intros i x _. cbv [compose]. f_equal. lia. }
    rewrite Himap.
    remember (imap (fun index (_ : string) => placeholder (S base + index + 1)) (m' :: ms))
      as tl eqn:Htl.
    assert (exists t tl', tl = t :: tl') as (t & tl' & Hcons)
      by (subst tl; cbn [imap]; eauto).
    rewrite Hcons. rewrite <- Hcons.
    replace (Str.join ", " (placeholder (base + 1) :: tl))
      with (placeholder (base + 1) +:+ ", " +:+ Str.join ", " tl)
      by (rewrite Hcons; reflexivity).
    rewrite !app_assoc_s.
    rewrite placeholders_placeholder; [| apply small_index; lia | reflexivity].
    change (", " +:+ Str.join ", " tl +:+ rest)
      with (String "," (String " " (Str.join ", " tl +:+ rest))).
    cbn [Sql.placeholders]. change (Ascii.eqb "," "$") with false.
    change (Ascii.eqb " " "$") with false. cbv iota.
    rewrite IH by (lia || exact Hrest).
    replace (S base + 1)%nat with (S (base + 1)) by lia. reflexivity.
Qed.

Section Parity.

Variable c : Components.
Hypothesis Hvetted : Sql.vetted c.

Lemma start_pending : Sql.pending (Assemble.selectClause c Assemble.start).
Proof.
  destruct Hvetted as (_ & _ & Hagg & _).
  unfold Sql.pending, Assemble.selectClause, Assemble.start.
  destruct (String.eqb (agg_type (aggregation c)) "none"); cbn [b_sql b_where b_parameters].
  - repeat split; (reflexivity || (cbn; lia)).
  - repeat split; try (reflexivity || (cbn; lia)).
    unfold buildAggregationSelect.
    destruct (String.eqb (agg_type (aggregation c)) "growth"); [reflexivity |].
    rewrite !clean_app, Hagg. reflexivity.
Qed.

Lemma fromClause_pending (b : Builder) :
  length (b_parameters b) = 0%nat -> Sql.pending b ->
  Sql.pending (Assemble.fromClause b) /\ length (b_parameters (Assemble.fromClause b)) = 0%nat.
Proof.
  intros H0 (Hc & Hw & Hl). split; [| exact H0].
  unfold Sql.pending, Assemble.fromClause. cbn [b_sql b_where b_parameters].
  repeat split; try assumption.
  rewrite !clean_app, Hc. reflexivity.
Qed.

Lemma departmentFilter_pending (b : Builder) :
  length (b_parameters b) = 0%nat -> Sql.pending b ->
  Sql.pending (Assemble.departmentFilter c b).
Proof.
  intros H0 (Hc & Hw & Hl). unfold Sql.pending, Assemble.departmentFilter.
  destruct (truthy (department c)); [| repeat split; assumption].
  cbn [b_sql b_where b_parameters]. rewrite H0 in *.
  repeat split; try assumption.
  - rewrite map_app, concat_app, Hw. cbn [map concat length].
    rewrite length_app. cbn [length]. rewrite H0.
    rewrite (placeholders_skip "d.code = ") by reflexivity.
    rewrite <- (app_nil_r_s (placeholder (0 + 1))).
    rewrite placeholders_placeholder by reflexivity. reflexivity.
  - rewrite length_app. cbn [length]. lia.
Qed.

Lemma dateFilter_pending (b : Builder) :
  Sql.pending b -> Sql.pending (Assemble.dateFilter c b).
Proof.
  destruct Hvetted as (Hp & Hd & _).
  intros (Hc & Hw & Hl). unfold Sql.pending, Assemble.dateFilter.
  destruct (negb (String.eqb (dr_sql (dateRange c)) "")); [| repeat split; assumption].
  cbn [b_sql b_where b_parameters]. rewrite Hp, app_nil_r.
  repeat split; try assumption.
  rewrite map_app, concat_app, Hw. cbn [map concat].
  rewrite (placeholders_clean _ Hd). now rewrite !app_nil_r.
Qed.

Lemma metricFilter_collected (b : Builder) :
  Sql.pending b ->
  let b' := Assemble.metricFilter c b in
  Sql.clean (b_sql b') = true
  /\ concat (map Sql.placeholders (b_where b')) = Sql.upTo (length (b_parameters b')).
Proof.
  destruct Hvetted as (_ & _ & _ & _ & Hm).
  intros (Hc & Hw & Hl). cbv zeta. unfold Assemble.metricFilter.
  destruct (0 <? length (metrics c))%nat; [| split; assumption].
  cbn [b_sql b_where b_parameters]. split; [assumption |].
  rewrite map_app, concat_app, Hw. cbn [map concat].
  rewrite length_app, upTo_app, app_nil_r. f_equal.
  rewrite app_assoc_s.
  rewrite (placeholders_skip "m.metric_name IN (") by reflexivity.
  rewrite placeholders_metricList by (lia || reflexivity).
  apply app_nil_r.
Qed.

Lemma whereClause_settled (b : Builder) :
  Sql.clean (b_sql b) = true ->
  concat (map Sql.placeholders (b_where b)) = Sql.upTo (length (b_parameters b)) ->
  Sql.settled (Assemble.whereClause b).
Proof.
  intros Hc Hw. unfold Sql.settled, Assemble.whereClause.
  destruct (0 <? length (b_where b))%nat eqn:E; cbn [b_sql b_parameters].
  - rewrite (placeholders_skip _ _ Hc).
    rewrite (placeholders_skip " WHERE ") by reflexivity.
    now rewrite placeholders_join_and.
  - rewrite (placeholders_clean _ Hc).
    destruct (b_where b); [| discriminate E].
    cbn in Hw. exact Hw.
Qed.

Lemma groupByClause_settled (b : Builder) :
  Sql.settled b -> Sql.settled (Assemble.groupByClause c b).
Proof.
  unfold Sql.settled, Assemble.groupByClause. intros H.
  destruct (negb (String.eqb (agg_type (aggregation c)) "none")); [| exact H].
  cbn [b_sql b_parameters]. rewrite placeholders_tail; [exact H | |];
    unfold buildGroupBy; destruct (truthy (department c)); reflexivity.
Qed.

Lemma orderByClause_settled (b : Builder) :
  Sql.settled b -> Sql.settled (Assemble.orderByClause c b).
Proof.
  destruct Hvetted as (_ & _ & _ & Hdir & _).
  unfold Sql.settled, Assemble.orderByClause. intros H.
  cbn [b_sql b_parameters]. rewrite placeholders_tail; [exact H | |];
    unfold buildOrderBy;
    destruct (String.eqb (cmp_type (comparison c)) "none"); try reflexivity.
  rewrite !clean_app, Hdir.
  destruct (negb (String.eqb (agg_type (aggregation c)) "none"));
    [destruct (String.eqb (agg_type (aggregation c)) "growth") |]; reflexivity.
Qed.

Lemma limitClause_settled (b : Builder) :
  Sql.settled b -> Sql.settled (Assemble.limitClause c b).
Proof.
  unfold Sql.settled, Assemble.limitClause. intros H.
  destruct (Num.positive (limit c)); [| exact H].
  cbn [b_sql b_parameters]. rewrite placeholders_tail; [exact H | | reflexivity].
  rewrite clean_app, numberToString_clean. reflexivity.
Qed.

Lemma run_settled : Sql.settled (Assemble.run c).
Proof.
  unfold Assemble.run.
  apply limitClause_settled, orderByClause_settled, groupByClause_settled.
  assert (length (b_parameters (Assemble.selectClause c Assemble.start)) = 0%nat) as H0.
  { unfold Assemble.selectClause.
    destruct (String.eqb (agg_type (aggregation c)) "none"); reflexivity. }
  destruct (fromClause_pending _ H0 start_pending) as [Hp H0'].
  pose proof (dateFilter_pending _ (departmentFilter_pending _ H0' Hp)) as Hd.
  destruct (metricFilter_collected _ Hd) as [Hc Hw].
  apply whereClause_settled; assumption.
Qed.

End Parity.

(** ** What the extractors hand over *)

Ltac split_ifs :=
  repeat match goal with
    | |- context [if ?b then _ else _] => destruct b
    end.

Lemma extractDateRange_parameters (q : string) (r : option string) :
  dr_parameters (extractDateRange q r) = [].
Proof. unfold extractDateRange, parseDateRange. split_ifs; reflexivity. Qed.

Lemma extractDateRange_clean (q : string) (r : option string) :
  Sql.clean (dr_sql (extractDateRange q r)) = true.
Proof. unfold extractDateRange, parseDateRange. split_ifs; reflexivity. Qed.

Lemma extractAggregation_clean (q : string) :
  Sql.clean (agg_function (extractAggregation q)) = true.
Proof. unfold extractAggregation. split_ifs; reflexivity. Qed.

Lemma extractComparison_clean (q : string) :
  Sql.clean (cmp_direction (extractComparison q)) = true.
Proof. unfold extractComparison. split_ifs; reflexivity. Qed.

Lemma extractMetrics_length (q : string) : (length (extractMetrics q) <= 10)%nat.
Proof.
  unfold extractMetrics, metricPatterns. cbn [scanMetrics].
  split_ifs; cbn; lia.
Qed.

Lemma extractComponents_vetted (q : string) (d r : option string) :
  Sql.vetted (extractComponents q d r).
Proof.
  unfold Sql.vetted, extractComponents.
  cbn [dateRange aggregation comparison metrics].
  repeat split.
  - apply extractDateRange_parameters.
  - apply extractDateRange_clean.
  - apply extractAggregation_clean.
  - apply extractComparison_clean.
  - apply extractMetrics_length.
Qed.

Lemma orUndefined_truthy (o : option string) :
  truthy (orUndefined o) = truthy o.
Proof. unfold orUndefined. destruct (truthy o) eqn:E; [exact E | reflexivity]. Qed.

Lemma departmentParameter_orUndefined (c : Components) (o : option string) :
  department c = orUndefined o ->
  Sql.departmentParameter c =
  if truthy (department c) then [default "" (department c)] else [].
Proof.
  intros H. unfold Sql.departmentParameter. rewrite H. unfold orUndefined.
  destruct (truthy o) eqn:E.
  - rewrite E. destruct o; [reflexivity | discriminate E].
  - reflexivity.
Qed.

(** What each step does to the parameters. *)

Lemma selectClause_parameters (c : Components) (b : Builder) :
  b_parameters (Assemble.selectClause c b) = b_parameters b
  /\ b_where (Assemble.selectClause c b) = b_where b.
Proof.
  unfold Assemble.selectClause.
  destruct (String.eqb (agg_type (aggregation c)) "none"); split; reflexivity.
Qed.

Lemma departmentFilter_parameters (c : Components) (b : Builder) :
  b_parameters (Assemble.departmentFilter c b) =
  b_parameters b ++ (if truthy (department c) then [default "" (department c)] else []).
Proof.
  unfold Assemble.departmentFilter.
  destruct (truthy (department c)); cbn [b_parameters]; now rewrite ?app_nil_r.
Qed.

Lemma dateFilter_parameters (c : Components) (b : Builder) :
  b_parameters (Assemble.dateFilter c b) =
  b_parameters b ++
  (if negb (String.eqb (dr_sql (dateRange c)) "") then dr_parameters (dateRange c) else []).
Proof.
  unfold Assemble.dateFilter.
  destruct (negb (String.eqb (dr_sql (dateRange c)) "")); cbn [b_parameters];
    now rewrite ?app_nil_r.
Qed.

Lemma metricFilter_parameters (c : Components) (b : Builder) :
  b_parameters (Assemble.metricFilter c b) = b_parameters b ++ metrics c.
Proof.
  unfold Assemble.metricFilter.
  destruct (metrics c) as [|m ms]; cbn [length Nat.ltb Nat.leb b_parameters];
    now rewrite ?app_nil_r.
Qed.

Lemma whereClause_parameters (b : Builder) :
  b_parameters (Assemble.whereClause b) = b_parameters b.
Proof. unfold Assemble.whereClause. now destruct (0 <? length (b_where b))%nat. Qed.

Lemma groupByClause_parameters (c : Components) (b : Builder) :
  b_parameters (Assemble.groupByClause c b) = b_parameters b.
Proof.
  unfold Assemble.groupByClause.
  now destruct (negb (String.eqb (agg_type (aggregation c)) "none")).
Qed.

Lemma limitClause_parameters (c : Components) (b : Builder) :
  b_parameters (Assemble.limitClause c b) = b_parameters b.
Proof. unfold Assemble.limitClause. now destruct (Num.positive (limit c)). Qed.

(** The parameters are the department, the date parameters and the metric
    names, in this order. *)
Lemma run_parameters (c : Components) :
  b_parameters (Assemble.run c) =
  (if truthy (department c) then [default "" (department c)] else [])
  ++ (if negb (String.eqb (dr_sql (dateRange c)) "") then dr_parameters (dateRange c) else [])
  ++ metrics c.
Proof.
  unfold Assemble.run.
  rewrite limitClause_parameters.
  change (b_parameters (Assemble.orderByClause c ?b)) with (b_parameters b).
  rewrite groupByClause_parameters, whereClause_parameters, metricFilter_parameters,
    dateFilter_parameters, departmentFilter_parameters.
  change (b_parameters (Assemble.fromClause ?b)) with (b_parameters b).
  rewrite (proj1 (selectClause_parameters c Assemble.start)).
  cbn [Assemble.start b_parameters app]. now rewrite <- app_assoc.
Qed.

(** The filters look at the parameters and conditions collected so far,
    not at the text of the statement. *)
Lemma filters_where (c : Components) (b b' : Builder) :
  b_parameters b = b_parameters b' -> b_where b = b_where b' ->
  b_where (Assemble.metricFilter c
             (Assemble.dateFilter c (Assemble.departmentFilter c b)))
  = b_where (Assemble.metricFilter c
               (Assemble.dateFilter c (Assemble.departmentFilter c b'))).
Proof.
  intros Hp Hw.
  unfold Assemble.metricFilter.
  rewrite !dateFilter_parameters, !departmentFilter_parameters, Hp.
  assert (b_where (Assemble.dateFilter c (Assemble.departmentFilter c b))
          = b_where (Assemble.dateFilter c (Assemble.departmentFilter c b'))) as Hd.
  { unfold Assemble.dateFilter, Assemble.departmentFilter.
    destruct (negb (String.eqb (dr_sql (dateRange c)) ""));
      destruct (truthy (department c)); cbn [b_where]; now rewrite ?Hp, ?Hw. }
  destruct (0 <? length (metrics c))%nat; cbn [b_where]; now rewrite Hd.
Qed.

Lemma filters_sql (c : Components) (b : Builder) :
  b_sql (Assemble.metricFilter c
           (Assemble.dateFilter c (Assemble.departmentFilter c b))) = b_sql b.
Proof.
  unfold Assemble.metricFilter, Assemble.dateFilter, Assemble.departmentFilter.
  destruct (truthy (department c));
    destruct (negb (String.eqb (dr_sql (dateRange c)) ""));
    destruct (0 <? length (metrics c))%nat; reflexivity.
Qed.

(** The statement is the concatenation of its clauses. *)
Lemma run_render (c : Components) :
  b_sql (Assemble.run c) = Sql.render (Sql.clausesOf c).
Proof.
  unfold Assemble.run, Sql.render, Sql.clausesOf.
  cbn [Sql.cl_select Sql.cl_from Sql.cl_where Sql.cl_groupBy Sql.cl_orderBy
       Sql.cl_limit].
  set (b0 := Assemble.selectClause c Assemble.start).
  set (b1 := Assemble.fromClause b0).
  set (f := fun b => Assemble.metricFilter c
                       (Assemble.dateFilter c (Assemble.departmentFilter c b))).
  change (Assemble.metricFilter c
            (Assemble.dateFilter c (Assemble.departmentFilter c b1))) with (f b1).
  change (Assemble.metricFilter c
            (Assemble.dateFilter c (Assemble.departmentFilter c Assemble.start)))
    with (f Assemble.start).
  assert (b_where (f b1) = b_where (f Assemble.start)) as Hw.
  { apply filters_where; unfold b1, b0;
      [change (b_parameters (Assemble.fromClause ?b)) with (b_parameters b)
      | change (b_where (Assemble.fromClause ?b)) with (b_where b)];
      apply selectClause_parameters. }
  assert (b_sql (f b1) = b_sql b0 +:+ " FROM metrics m INNER JOIN departments d ON m.department_id = d.id")
    as Hs.
  { unfold f. rewrite filters_sql. unfold b1, Assemble.fromClause. cbn [b_sql].
    now rewrite app_assoc_s. }
  assert (b_sql (Assemble.whereClause (f b1)) =
          b_sql b0 +:+ " FROM metrics m INNER JOIN departments d ON m.department_id = d.id" +:+
          (if (0 <? length (b_where (f Assemble.start)))%nat
           then " WHERE " +:+ Str.join " AND " (b_where (f Assemble.start)) else "")) as Hwh.
  { unfold Assemble.whereClause. rewrite Hw.
    destruct (0 <? length (b_where (f Assemble.start)))%nat; cbn [b_sql];
      rewrite Hs, ?app_assoc_s, ?app_nil_r_s; reflexivity. }
  generalize dependent (Assemble.whereClause (f b1)). intros bw Hbw.
  unfold Assemble.limitClause, Assemble.orderByClause, Assemble.groupByClause.
  destruct (negb (String.eqb (agg_type (aggregation c)) "none"));
    destruct (Num.positive (limit c)); cbn [b_sql];
    rewrite Hbw, ?app_assoc_s, ?app_nil_r_s; reflexivity.
Qed.

(** ** The patterns of [extractLimit] *)

Lemma stripPrefix_sound (p : string) :
  forall s s', Str.stripPrefix p s = Some s' -> s = p +:+ s'.
Proof.
  induction p as [|c p IH]; intros s s'; cbn [Str.stripPrefix].
  - now intros [= ->].
  - destruct s as [|d s]; [discriminate |].
    destruct (Ascii.eqb_spec c d) as [-> |]; [| discriminate].
    intros H. cbn. f_equal. apply IH, H.
Qed.

Lemma stripPrefix_complete (p s : string) : Str.stripPrefix p (p +:+ s) = Some s.
Proof.
  induction p as [|c p IH]; [reflexivity |].
  cbn. now rewrite Ascii.eqb_refl.
Qed.

Lemma take_drop (n : nat) : forall s, Str.take n s +:+ Str.drop n s = s.
Proof.
  induction n as [|n IH]; intros [|c s]; cbn; try reflexivity.
  now rewrite IH.
Qed.

Lemma take_digits (s : string) :
  forall n, (n <= String.length (fst (Str.spanDigits s)))%nat ->
    Str.allDigits (Str.take n s) = true.
Proof.
  unfold Str.allDigits.
  induction s as [|c s IH]; intros [|n] Hn; try reflexivity.
  cbn [Str.spanDigits] in Hn.
  destruct (Str.isDigit c) eqn:Ec.
  - destruct (Str.spanDigits s) as [d r]. cbn in Hn, IH.
    cbn [Str.take Str.chars list_ascii_of_string forallb]. rewrite Ec.
    apply IH. lia.
  - cbn in Hn. lia.
Qed.

Lemma take_nonempty (s : string) (n : nat) :
  (1 <= n <= String.length (fst (Str.spanDigits s)))%nat -> Str.take n s <> "".
Proof.
  destruct n as [|n]; [lia |]. destruct s as [|c s]; [cbn; lia |]. discriminate.
Qed.

Lemma spanDigits_exact (d r : string) :
  Str.allDigits d = true -> Sql.startsWithDigit r = false ->
  Str.spanDigits (d +:+ r) = (d, r).
Proof.
  unfold Str.allDigits. intros Hd Hr. induction d as [|c d IH].
  - destruct r as [|x r]; [reflexivity |]. cbn in Hr |- *. now rewrite Hr.
  - cbn [Str.chars list_ascii_of_string forallb] in Hd.
    apply andb_prop in Hd as [Hc Hd].
    change (String c d +:+ r) with (String c (d +:+ r)).
    cbn [Str.spanDigits]. now rewrite Hc, (IH Hd).
Qed.

Lemma spanDigits_front (d r : string) :
  Str.allDigits d = true -> d <> "" ->
  (1 <= String.length (fst (Str.spanDigits (d +:+ r))))%nat.
Proof.
  unfold Str.allDigits. destruct d as [|c d]; [congruence |].
  cbn [Str.chars list_ascii_of_string forallb]. intros H _.
  apply andb_prop in H as [Hc _].
  change (String c d +:+ r) with (String c (d +:+ r)). cbn [Str.spanDigits].
  rewrite Hc. destruct (Str.spanDigits (d +:+ r)). cbn. lia.
Qed.

Lemma greedy_In (n k : nat) : In k (Regex.greedy n) <-> (1 <= k <= n)%nat.
Proof.
  induction n as [|n IH]; cbn [Regex.greedy In]; [lia |].
  rewrite IH. lia.
Qed.

Lemma firstSome_sound {A B : Type} (f : A -> option B) (l : list A) (y : B) :
  Regex.firstSome f l = Some y -> exists x, In x l /\ f x = Some y.
Proof.
  induction l as [|x l IH]; cbn [Regex.firstSome]; [discriminate |].
  destruct (f x) eqn:E.
  - intros [= <-]. exists x. split; [now left | exact E].
  - intros H. destruct (IH H) as (x' & Hin & Hx'). exists x'. split; [now right | exact Hx'].
Qed.

Lemma firstSome_complete {A B : Type} (f : A -> option B) (l : list A) (x : A) :
  In x l -> f x <> None -> Regex.firstSome f l <> None.
Proof.
  induction l as [|x' l IH]; cbn [Regex.firstSome In]; [tauto |].
  intros [-> | Hin] Hx.
  - destruct (f x); [discriminate | contradiction].
  - destruct (f x'); [discriminate | apply IH; assumption].
Qed.

Lemma exec_sound (r : regex) (s : string) (cap : option string) :
  Regex.exec r s = Some cap ->
  exists pre rest, s = pre +:+ rest /\ Regex.matchHere r rest None = Some cap.
Proof.
  induction s as [|c s IH]; cbn [Regex.exec].
  - destruct (Regex.matchHere r "" None) eqn:E; [| discriminate].
    intros [= <-]. exists "", "". split; [reflexivity | exact E].
  - destruct (Regex.matchHere r (String c s) None) eqn:E.
    + intros [= <-]. exists "", (String c s). split; [reflexivity | exact E].
    + intros H. destruct (IH H) as (pre & rest & -> & Hm).
      exists (String c pre), rest. split; [reflexivity | exact Hm].
Qed.

Lemma exec_complete (r : regex) (pre rest : string) :
  Regex.matchHere r rest None <> None -> Regex.exec r (pre +:+ rest) <> None.
Proof.
  intros Hm. induction pre as [|c pre IH].
  - cbn [String.append]. destruct rest; cbn [Regex.exec];
      destruct (Regex.matchHere r _ None); congruence.
  - change (String c pre +:+ rest) with (String c (pre +:+ rest)).
    cbn [Regex.exec].
    destruct (Regex.matchHere r (String c (pre +:+ rest)) None); [discriminate | exact IH].
Qed.

Lemma drop_app (d r : string) : Str.drop (String.length d) (d +:+ r) = r.
Proof.
  induction d as [|c d IH]; cbn; [now destruct r | exact IH].
Qed.

Lemma literal_digits_sound (l s : string) (cap : option string) :
  Regex.matchHere [Lit l; CapDigits] s None = Some cap ->
  exists d post, cap = Some d /\ s = l +:+ d +:+ post
                 /\ Str.allDigits d = true /\ d <> "".
Proof.
  cbn [Regex.matchHere].
  destruct (Str.stripPrefix l s) as [s'|] eqn:El; [| discriminate].
  intros H. apply firstSome_sound in H as (n & Hin & Hn).
  apply greedy_In in Hin. injection Hn as <-.
  exists (Str.take n s'), (Str.drop n s'). repeat split.
  - rewrite take_drop. apply stripPrefix_sound, El.
  - apply take_digits. lia.
  - apply take_nonempty. exact Hin.
Qed.

Lemma literal_digits_complete (l d post : string) :
  Str.allDigits d = true -> d <> "" ->
  Regex.matchHere [Lit l; CapDigits] (l +:+ d +:+ post) None <> None.
Proof.
  intros Hd Hne. cbn [Regex.matchHere]. rewrite stripPrefix_complete.
  pose proof (spanDigits_front d post Hd Hne) as Hlen.
  destruct (String.length (fst (Str.spanDigits (d +:+ post)))) as [|n]; [lia |].
  cbn [Regex.greedy Regex.firstSome]. discriminate.
Qed.

Lemma ranked_sound (alts : list string) (s : string) (cap : option string) :
  Regex.matchHere [CapDigits; Lit " "; AltLit alts] s None = Some cap ->
  exists d w post, cap = Some d /\ s = d +:+ " " +:+ w +:+ post /\ In w alts
                   /\ Str.allDigits d = true /\ d <> "".
Proof.
  cbn [Regex.matchHere]. intros H.
  apply firstSome_sound in H as (n & Hin & Hn). apply greedy_In in Hin.
  destruct (Str.stripPrefix " " (Str.drop n s)) as [s'|] eqn:Es; [| discriminate].
  apply firstSome_sound in Hn as (w & Hw & Hn).
  destruct (Str.stripPrefix w s') as [post|] eqn:Ew; [| discriminate].
  injection Hn as <-.
  exists (Str.take n s), w, post. repeat split.
  - apply stripPrefix_sound in Es, Ew. rewrite <- Ew, <- Es. symmetry. apply take_drop.
  - exact Hw.
  - apply take_digits. lia.
  - apply take_nonempty. exact Hin.
Qed.

Lemma ranked_complete (alts : list string) (d w post : string) :
  In w alts -> Str.allDigits d = true -> d <> "" ->
  Regex.matchHere [CapDigits; Lit " "; AltLit alts] (d +:+ " " +:+ w +:+ post) None <> None.
Proof.
  intros Hw Hd Hne. cbn [Regex.matchHere].
  rewrite (spanDigits_exact d (" " +:+ w +:+ post) Hd) by reflexivity. cbn [fst].
  apply firstSome_complete with (x := String.length d).
  - apply greedy_In. destruct d; [congruence | cbn; lia].
  - rewrite drop_app, (stripPrefix_complete " ").
    apply firstSome_complete with (x := w); [exact Hw |].
    rewrite stripPrefix_complete. discriminate.
Qed.

(** Reading the digits a pattern captured. *)
Lemma parseInt_digits (d : string) :
  Str.allDigits d = true -> d <> "" ->
  Num.parseInt d = Num.toDouble (Num.digitsValue d).
Proof.
  intros Hd Hne. unfold Num.parseInt.
  pose proof (spanDigits_exact d "" Hd eq_refl) as H.
  rewrite app_nil_r_s in H. rewrite H. destruct d; [congruence | reflexivity].
Qed.

Lemma exec_pattern0 (q : string) :
  match Regex.exec [Lit "top "; CapDigits] q with
  | Some cap => exists d, cap = Some d /\ numericPattern q 0 d
  | None => forall d, ~ numericPattern q 0 d
  end.
Proof.
  destruct (Regex.exec _ q) as [cap|] eqn:E.
  - apply exec_sound in E as (pre & rest & -> & Hm).
    apply literal_digits_sound in Hm as (d & post & -> & -> & Hd & Hne).
    exists d. split; [reflexivity |]. now apply (top_N _ pre d post).
  - intros d H. inversion H as [pre d' post Hq Hd Hne | |]; subst.
    revert E. apply exec_complete, literal_digits_complete; assumption.
Qed.

Lemma exec_pattern1 (q : string) :
  match Regex.exec [Lit "first "; CapDigits] q with
  | Some cap => exists d, cap = Some d /\ numericPattern q 1 d
  | None => forall d, ~ numericPattern q 1 d
  end.
Proof.
  destruct (Regex.exec _ q) as [cap|] eqn:E.
  - apply exec_sound in E as (pre & rest & -> & Hm).
    apply literal_digits_sound in Hm as (d & post & -> & -> & Hd & Hne).
    exists d. split; [reflexivity |]. now apply (first_N _ pre d post).
  - intros d H. inversion H as [| pre d' post Hq Hd Hne |]; subst.
    revert E. apply exec_complete, literal_digits_complete; assumption.
Qed.

Lemma exec_pattern2 (q : string) :
  match Regex.exec [CapDigits; Lit " "; AltLit rankWords] q with
  | Some cap => exists d, cap = Some d /\ numericPattern q 2 d
  | None => forall d, ~ numericPattern q 2 d
  end.
Proof.
  destruct (Regex.exec _ q) as [cap|] eqn:E.
  - apply exec_sound in E as (pre & rest & -> & Hm).
    apply ranked_sound in Hm as (d & w & post & -> & -> & Hw & Hd & Hne).
    exists d. split; [reflexivity |]. now apply (N_ranked _ pre d w post).
  - intros d H. inversion H as [| | pre d' w post Hq Hw Hd Hne]; subst.
    revert E. apply exec_complete, ranked_complete; assumption.
Qed.

Lemma numericPattern_inv (q : string) (i : nat) (d : string) :
  numericPattern q i d -> Str.allDigits d = true /\ d <> "" /\ (i <= 2)%nat.
Proof. intros H. inversion H; subst; repeat split; (assumption || lia). Qed.

(** The loop returns the number of the first pattern, in the order of the
    table, that occurs in the question. *)
Lemma scanLimit_first (q : string) :
  match scanLimit q limitPatterns with
  | Some v =>
      exists i d, numericPattern q i d
                  /\ v = Num.toDouble (Num.digitsValue d)
                  /\ forall j d', (j < i)%nat -> ~ numericPattern q j d'
  | None => forall i d, ~ numericPattern q i d
  end.
Proof.
  unfold limitPatterns. cbn [scanLimit]. fold rankWords.
  pose proof (exec_pattern0 q) as H0.
  pose proof (exec_pattern1 q) as H1.
  pose proof (exec_pattern2 q) as H2.
  destruct (Regex.exec [Lit "top "; CapDigits] q) as [cap|].
  { destruct H0 as (d & -> & Hp). exists 0%nat, d.
    destruct (numericPattern_inv _ _ _ Hp) as (Hd & Hne & _).
    repeat split; [exact Hp | now apply parseInt_digits | lia]. }
  destruct (Regex.exec [Lit "first "; CapDigits] q) as [cap|].
  { destruct H1 as (d & -> & Hp). exists 1%nat, d.
    destruct (numericPattern_inv _ _ _ Hp) as (Hd & Hne & _).
    repeat split; [exact Hp | now apply parseInt_digits |].
    intros j d' Hj. replace j with 0%nat by lia. apply H0. }
  destruct (Regex.exec [CapDigits; Lit " "; AltLit rankWords] q) as [cap|].
  { destruct H2 as (d & -> & Hp). exists 2%nat, d.
    destruct (numericPattern_inv _ _ _ Hp) as (Hd & Hne & _).
    repeat split; [exact Hp | now apply parseInt_digits |].
    intros j d' Hj. destruct j as [|[|j]]; [apply H0 | apply H1 | lia]. }
  intros i d Hp. destruct (numericPattern_inv _ _ _ Hp) as (_ & _ & Hi).
  destruct i as [|[|[|i]]]; [now apply (H0 d) | now apply (H1 d) | now apply (H2 d) | lia].
Qed.

(** ** Leftmost occurrences and whole numbers *)

Lemma spanDigits_split (s : string) :
  s = fst (Str.spanDigits s) +:+ snd (Str.spanDigits s)
  /\ Str.allDigits (fst (Str.spanDigits s)) = true
  /\ Sql.startsWithDigit (snd (Str.spanDigits s)) = false.
Proof.
  unfold Str.allDigits. induction s as [|c s (IH1 & IH2 & IH3)]; [now cbn |].
  cbn [Str.spanDigits]. destruct (Str.isDigit c) eqn:Ec.
  - destruct (Str.spanDigits s) as [d r]. cbn [fst snd] in *.
    repeat split; [cbn; now rewrite <- IH1 | | exact IH3].
    cbn [Str.chars list_ascii_of_string forallb]. now rewrite Ec.
  - cbn [fst snd]. repeat split. cbn. exact Ec.
Qed.

Lemma exec_leftmost (r : regex) (s : string) (cap : option string) :
  Regex.exec r s = Some cap ->
  exists pre rest,
    s = pre +:+ rest /\ Regex.matchHere r rest None = Some cap
    /\ forall p1 p2, pre = p1 +:+ p2 -> p2 <> "" ->
                     Regex.matchHere r (p2 +:+ rest) None = None.
Proof.
  induction s as [|c s IH]; cbn [Regex.exec].
  - destruct (Regex.matchHere r "" None) eqn:E; [| discriminate].
    intros [= <-]. exists "", "". repeat split; [exact E |].
    intros [|] [|] H Hne; try discriminate H. congruence.
  - destruct (Regex.matchHere r (String c s) None) eqn:E.
    + intros [= <-]. exists "", (String c s). repeat split; [exact E |].
      intros [|] [|] H Hne; try discriminate H. congruence.
    + intros H. destruct (IH H) as (pre & rest & -> & Hm & Hleft).
      exists (String c pre), rest. repeat split; [exact Hm |].
      intros [|x p1] p2 Hp Hne.
      * cbn in Hp. subst p2. exact E.
      * injection Hp as _ Hp. exact (Hleft p1 p2 Hp Hne).
Qed.

Lemma literal_digits_whole (l s : string) (cap : option string) :
  Regex.matchHere [Lit l; CapDigits] s None = Some cap ->
  exists d post, cap = Some d /\ s = l +:+ d +:+ post
                 /\ Str.allDigits d = true /\ d <> ""
                 /\ Sql.startsWithDigit post = false.
Proof.
  cbn [Regex.matchHere].
  destruct (Str.stripPrefix l s) as [s'|] eqn:El; [| discriminate].
  destruct (spanDigits_split s') as (Hs & Hd & Hp).
  destruct (String.length (fst (Str.spanDigits s'))) as [|n] eqn:En;
    cbn [Regex.greedy Regex.firstSome]; [discriminate |].
  intros [= <-].
  assert (Str.take (S n) s' = fst (Str.spanDigits s')) as Ht.
  { rewrite <- En. rewrite Hs at 2.
    generalize (fst (Str.spanDigits s')) (snd (Str.spanDigits s')).
    intros a b. induction a as [|x a IH]; cbn; [now destruct b | now rewrite IH]. }
  exists (fst (Str.spanDigits s')), (snd (Str.spanDigits s')).
  change (match s' with
          | "" => ""
          | String c s'0 => String c (Str.take n s'0)
          end) with (Str.take (S n) s').
  rewrite Ht. repeat split; try assumption.
  - rewrite <- Hs. apply stripPrefix_sound, El.
  - intros E0. rewrite E0 in En. discriminate En.
Qed.


Lemma app_split_shorter (c : string) :
  forall a b d,
    a +:+ b = c +:+ d -> (String.length c < String.length a)%nat ->
    exists p, p <> "" /\ a = c +:+ p /\ d = p +:+ b.
Proof.
  induction c as [|x c IH]; intros a b d H Hlen.
  - exists a. cbn in H |- *. repeat split; [| now symmetry].
    destruct a; [cbn in Hlen; lia | discriminate].
  - destruct a as [|y a]; [cbn in Hlen; lia |].
    cbn in H, Hlen. injection H as -> H.
    destruct (IH a b d H ltac:(lia)) as (p & Hp & -> & ->).
    exists p. repeat split; assumption.
Qed.

Lemma app_same_length (c : string) :
  forall a b d,
    a +:+ b = c +:+ d -> String.length a = String.length c -> a = c /\ b = d.
Proof.
  induction c as [|x c IH]; intros [|y a] b d H Hlen; cbn in H, Hlen;
    try discriminate Hlen; [now split |].
  injection H as -> H. injection Hlen as Hlen.
  destruct (IH a b d H Hlen) as [-> ->]. now split.
Qed.

Lemma capture_numericPattern (q : string) (i : nat) (pre d : string) :
  capture q i pre d -> numericPattern q i d.
Proof.
  intros H. inversion H; subst.
  - now apply (top_N _ pre d post).
  - now apply (first_N _ pre d post).
  - now apply (N_ranked _ pre d w post).
Qed.

(** At the place of a capture the pattern matches. *)
Lemma capture_matchHere (q : string) (i : nat) (pre d : string) :
  capture q i pre d ->
  exists rest, q = pre +:+ rest
               /\ Regex.matchHere (nth i limitPatterns []) rest None <> None.
Proof.
  intros H. inversion H; subst; cbn [nth limitPatterns].
  - exists ("top " +:+ d +:+ post). split; [reflexivity |].
    now apply literal_digits_complete.
  - exists ("first " +:+ d +:+ post). split; [reflexivity |].
    now apply literal_digits_complete.
  - exists (d +:+ " " +:+ w +:+ post). split; [reflexivity |].
    now apply ranked_complete.
Qed.

(** No capture starts before the match [exec] returns. *)
Lemma exec_before_captures (q : string) (i : nat) (pre rest : string) :
  q = pre +:+ rest ->
  (forall p1 p2, pre = p1 +:+ p2 -> p2 <> "" ->
     Regex.matchHere (nth i limitPatterns []) (p2 +:+ rest) None = None) ->
  forall pre' d', capture q i pre' d' ->
                  (String.length pre <= String.length pre')%nat.
Proof.
  intros Hq Hleft pre' d' Hc.
  destruct (le_lt_dec (String.length pre) (String.length pre')) as [| Hlt];
    [assumption | exfalso].
  apply capture_matchHere in Hc as (rest' & Hq' & Hm).
  rewrite Hq in Hq'.
  destruct (app_split_shorter pre' pre rest rest' Hq' Hlt) as (p & Hp & Hpre & Hrest).
  apply Hm. rewrite Hrest. exact (Hleft pre' p Hpre Hp).
Qed.

Lemma exec_capture0 (q : string) (cap : option string) :
  Regex.exec [Lit "top "; CapDigits] q = Some cap ->
  exists d, cap = Some d /\ limitCapture q 0 d.
Proof.
  intros E. apply exec_leftmost in E as (pre & rest & Hq & Hm & Hleft).
  apply literal_digits_whole in Hm as (d & post & -> & Hrest & Hd & Hne & Hp).
  exists d. split; [reflexivity |]. exists pre. split.
  - apply (capture_top _ pre d post); try assumption. now rewrite Hq, Hrest.
  - now apply (exec_before_captures q 0 pre rest).
Qed.

Lemma exec_capture1 (q : string) (cap : option string) :
  Regex.exec [Lit "first "; CapDigits] q = Some cap ->
  exists d, cap = Some d /\ limitCapture q 1 d.
Proof.
  intros E. apply exec_leftmost in E as (pre & rest & Hq & Hm & Hleft).
  apply literal_digits_whole in Hm as (d & post & -> & Hrest & Hd & Hne & Hp).
  exists d. split; [reflexivity |]. exists pre. split.
  - apply (capture_first _ pre d post); try assumption. now rewrite Hq, Hrest.
  - now apply (exec_before_captures q 1 pre rest).
Qed.

Lemma exec_capture2 (q : string) (cap : option string) :
  Regex.exec [CapDigits; Lit " "; AltLit ["top"; "best"; "worst"]] q = Some cap ->
  exists d, cap = Some d /\ limitCapture q 2 d.
Proof.
  intros E. apply exec_leftmost in E as (pre & rest & Hq & Hm & Hleft).
  pose proof Hm as Hm'.
  apply ranked_sound in Hm' as (d & w & post & -> & Hrest & Hw & Hd & Hne).
  exists d. split; [reflexivity |]. exists pre. split.
  - apply (capture_ranked _ pre d w post); try assumption. now rewrite Hq, Hrest.
  - now apply (exec_before_captures q 2 pre rest).
Qed.

(** A pattern captures one run of digits only. *)
Lemma limitCapture_unique (q : string) (i : nat) (d d' : string) :
  limitCapture q i d -> limitCapture q i d' -> d = d'.
Proof.
  intros (pre & Hc & Hmin) (pre' & Hc' & Hmin').
  assert (String.length pre = String.length pre') as Hlen.
  { pose proof (Hmin _ _ Hc'). pose proof (Hmin' _ _ Hc). lia. }
  assert (forall l a b, pre +:+ l +:+ a = pre' +:+ l +:+ b -> a = b) as Hcut.
  { intros l a b H. apply app_same_length in H as [_ H]; [| exact Hlen].
    apply app_same_length in H as [_ H]; [exact H | reflexivity]. }
  inversion Hc; subst;
    inversion Hc'; subst;
    match goal with H : _ +:+ _ = _ +:+ _ |- _ => rename H into Hq end.
  - apply Hcut in Hq. apply (f_equal Str.spanDigits) in Hq.
    rewrite !spanDigits_exact in Hq by assumption. now injection Hq.
  - apply Hcut in Hq. apply (f_equal Str.spanDigits) in Hq.
    rewrite !spanDigits_exact in Hq by assumption. now injection Hq.
  - apply app_same_length in Hq as [_ Hq]; [| exact Hlen].
    apply (f_equal Str.spanDigits) in Hq.
    rewrite !spanDigits_exact in Hq by (assumption || reflexivity).
    now injection Hq.
Qed.

(** The loop returns the value of the digits captured by the first
    pattern, in the order of the table, that occurs in the question. *)
Lemma scanLimit_capture (q : string) (v : number) :
  scanLimit q limitPatterns = Some v ->
  exists i d, limitCapture q i d
              /\ v = Num.toDouble (Num.digitsValue d)
              /\ forall j d', (j < i)%nat -> ~ numericPattern q j d'.
Proof.
  unfold limitPatterns. cbn [scanLimit]. fold rankWords.
  pose proof (exec_pattern0 q) as H0.
  pose proof (exec_pattern1 q) as H1.
  destruct (Regex.exec [Lit "top "; CapDigits] q) as [cap|] eqn:E0.
  { intros [= <-]. apply exec_capture0 in E0 as (d & -> & Hc). exists 0%nat, d.
    destruct Hc as (pre & Hc & Hmin).
    destruct (numericPattern_inv _ _ _ (capture_numericPattern _ _ _ _ Hc))
      as (Hd & Hne & _).
    repeat split; [now exists pre | now apply parseInt_digits | lia]. }
  destruct (Regex.exec [Lit "first "; CapDigits] q) as [cap|] eqn:E1.
  { intros [= <-]. apply exec_capture1 in E1 as (d & -> & Hc). exists 1%nat, d.
    destruct Hc as (pre & Hc & Hmin).
    destruct (numericPattern_inv _ _ _ (capture_numericPattern _ _ _ _ Hc))
      as (Hd & Hne & _).
    repeat split; [now exists pre | now apply parseInt_digits |].
    intros j d' Hj. replace j with 0%nat by lia. apply H0. }
  destruct (Regex.exec [CapDigits; Lit " "; AltLit rankWords] q) as [cap|] eqn:E2;
    [| discriminate].
  intros [= <-]. apply exec_capture2 in E2 as (d & -> & Hc). exists 2%nat, d.
  destruct Hc as (pre & Hc & Hmin).
  destruct (numericPattern_inv _ _ _ (capture_numericPattern _ _ _ _ Hc))
    as (Hd & Hne & _).
  repeat split; [now exists pre | now apply parseInt_digits |].
  intros j d' Hj. destruct j as [|[|j]]; [apply H0 | apply H1 | lia].
Qed.

Lemma limitCapture_numericPattern (q : string) (i : nat) (d : string) :
  limitCapture q i d -> numericPattern q i d.
Proof. intros (pre & Hc & _). exact (capture_numericPattern _ _ _ _ Hc). Qed.

(** A pattern that occurs in the question captures a run of digits. *)
Lemma numericPattern_captured (q : string) (i : nat) (d : string) :
  numericPattern q i d -> exists d0, limitCapture q i d0.
Proof.
  intros H.
  pose proof (exec_pattern0 q) as H0.
  pose proof (exec_pattern1 q) as H1.
  pose proof (exec_pattern2 q) as H2.
  destruct (numericPattern_inv _ _ _ H) as (_ & _ & Hi).
  destruct i as [|[|[|i]]]; [| | | lia].
  - destruct (Regex.exec [Lit "top "; CapDigits] q) as [cap|] eqn:E;
      [| exfalso; exact (H0 _ H)].
    apply exec_capture0 in E as (d0 & _ & Hc). now exists d0.
  - destruct (Regex.exec [Lit "first "; CapDigits] q) as [cap|] eqn:E;
      [| exfalso; exact (H1 _ H)].
    apply exec_capture1 in E as (d0 & _ & Hc). now exists d0.
  - destruct (Regex.exec [CapDigits; Lit " "; AltLit rankWords] q) as [cap|] eqn:E;
      [| exfalso; exact (H2 _ H)].
    apply exec_capture2 in E as (d0 & _ & Hc). now exists d0.
Qed.

(** The limit when a pattern occurs: the value of the digits captured by
    the first pattern of the table that occurs. *)
Lemma extractLimit_captured (q : string) (i : nat) (d : string) :
  limitCapture q i d ->
  (forall j d', (j < i)%nat -> ~ numericPattern q j d') ->
  extractLimit q = Num.toDouble (Num.digitsValue d).
Proof.
  intros Hc Hmin. unfold extractLimit.
  pose proof (scanLimit_first q) as Hnone.
  destruct (scanLimit q limitPatterns) as [v|] eqn:E.
  - clear Hnone. apply scanLimit_capture in E as (i0 & d0 & Hc0 & -> & Hmin0).
    assert (i = i0) as ->.
    { destruct (Nat.lt_trichotomy i i0) as [Hlt | [Heq | Hgt]]; [| exact Heq |].
      - exfalso. exact (Hmin0 _ _ Hlt (limitCapture_numericPattern _ _ _ Hc)).
      - exfalso. exact (Hmin _ _ Hgt (limitCapture_numericPattern _ _ _ Hc0)). }
    now rewrite (limitCapture_unique _ _ _ _ Hc Hc0).
  - exfalso. exact (Hnone _ _ (limitCapture_numericPattern _ _ _ Hc)).
Qed.

(** ** Claims about the assembled statement *)

(** C1: for every compiled query the placeholders of the statement are
    [$1 .. $n] in this order, with [n] the number of parameters, and the
    parameters are the department, then the date-range parameters, then one
    per metric name. *)
Theorem C1_placeholder_parity (query : string) (dbSchema : Value)
    (departmentFilter dateRange_ : option string) (debug : bool) :
  let q := generateSQLFromNaturalLanguage query dbSchema departmentFilter dateRange_ debug in
  let c := extractComponents (Str.toLowerCase query) departmentFilter dateRange_ in
  Sql.placeholders (sql q) = Sql.upTo (length (parameters q))
  /\ length (Sql.placeholders (sql q)) = length (parameters q)
  /\ parameters q = Sql.departmentParameter c ++ dr_parameters (dateRange c) ++ metrics c.
Proof.
  cbv zeta. unfold generateSQLFromNaturalLanguage. cbn [sql parameters].
  set (c := extractComponents (Str.toLowerCase query) departmentFilter dateRange_).
  pose proof (run_settled c (extractComponents_vetted _ _ _)) as Hs.
  unfold Sql.settled in Hs.
  split; [exact Hs |]. split.
  - rewrite Hs. unfold Sql.upTo. now rewrite length_map, length_seq.
  - rewrite run_parameters.
    rewrite (departmentParameter_orUndefined c
               (extractDepartment (Str.toLowerCase query) departmentFilter))
      by reflexivity.
    f_equal. f_equal.
    destruct (negb (String.eqb (dr_sql (dateRange c)) "")); [reflexivity |].
    symmetry. apply extractDateRange_parameters.
Qed.

(** C4: with an aggregation and a department filter the statement groups
    by the metric name alone although it selects the department name. *)
Theorem C4_group_by_metric_only (query : string) (dbSchema : Value)
    (departmentFilter dateRange_ : option string) (debug : bool) :
  let q := generateSQLFromNaturalLanguage query dbSchema departmentFilter dateRange_ debug in
  let c := extractComponents (Str.toLowerCase query) departmentFilter dateRange_ in
  agg_type (aggregation c) <> "none" ->
  department c <> None ->
  sql q = Sql.render (Sql.clausesOf c)
  /\ Sql.cl_groupBy (Sql.clausesOf c) = " GROUP BY m.metric_name"
  /\ exists rest, Sql.cl_select (Sql.clausesOf c) = "SELECT d.name as department" +:+ rest.
Proof.
  cbv zeta. intros Hagg Hdept.
  set (c := extractComponents (Str.toLowerCase query) departmentFilter dateRange_) in *.
  split; [apply run_render |].
  assert (truthy (department c) = true) as Ht.
  { unfold c, extractComponents in Hdept |- *. cbn [department] in Hdept |- *.
    rewrite orUndefined_truthy. unfold orUndefined in Hdept.
    destruct (truthy _); [reflexivity | contradiction]. }
  apply String.eqb_neq in Hagg.
  unfold Sql.clausesOf. cbn [Sql.cl_groupBy Sql.cl_select].
  rewrite Hagg, Ht. cbn [negb]. split; [reflexivity |].
  unfold Assemble.selectClause. rewrite Hagg. cbn [b_sql Assemble.start].
  unfold buildAggregationSelect.
  destruct (String.eqb (agg_type (aggregation c)) "growth"); eexists; reflexivity.
Qed.

Lemma C4_group_by_metric_only_witness :
  let c := extractComponents (Str.toLowerCase "total pipeline this year") None None in
  Sql.cl_groupBy (Sql.clausesOf c) = " GROUP BY m.metric_name".
Proof.
  refine (proj1 (proj2
    (C4_group_by_metric_only "total pipeline this year" someSchema None None false _ _)));
    vm_compute; discriminate.
Defined.

Lemma unmatched_components (q : string) :
  unmatched q -> extractComponents q None None = defaultComponents.
Proof.
  intros (Hd & Hr & Ha & Hm & Hc & Hl).
  assert (Str.includes q "top" = false /\ Str.includes q "best" = false) as [Htop Hbest].
  { unfold extractComparison in Hc.
    destruct (Str.includes q "top"), (Str.includes q "best"); cbn in Hc;
      try discriminate Hc; split; reflexivity. }
  unfold extractComponents, defaultComponents. f_equal.
  - unfold extractDepartment. cbn [truthy]. now rewrite Hd.
  - revert Hr. unfold extractDateRange. cbn [truthy]. split_ifs; cbn [dr_type];
      intros Hr; (discriminate Hr || reflexivity).
  - revert Ha. unfold extractAggregation. split_ifs; cbn [agg_type];
      intros Ha; (discriminate Ha || reflexivity).
  - exact Hm.
  - revert Hc. unfold extractComparison. split_ifs; cbn [cmp_type];
      intros Hc; (discriminate Hc || reflexivity).
  - unfold extractLimit. now rewrite Hl, Htop, Hbest.
Qed.

(** C10: a question matching no rule, without overrides, compiles to the
    default statement: no WHERE, no GROUP BY, newest records first, no
    LIMIT, no parameters, and an explanation of a plain retrieval. *)
Theorem C10_no_match_fallback (query : string) (dbSchema : Value) (debug : bool) :
  unmatched (Str.toLowerCase query) ->
  let q := generateSQLFromNaturalLanguage query dbSchema None None debug in
  let c := extractComponents (Str.toLowerCase query) None None in
  sql q = Sql.defaultQuery
  /\ Sql.cl_where (Sql.clausesOf c) = ""
  /\ Sql.cl_groupBy (Sql.clausesOf c) = ""
  /\ Sql.cl_orderBy (Sql.clausesOf c) = " ORDER BY m.metric_date DESC"
  /\ Sql.cl_limit (Sql.clausesOf c) = ""
  /\ limit c = Fin 0
  /\ parameters q = []
  /\ explanation q = "Generated SQL query to retrieve metrics. Matched patterns: basic_selection."
  /\ matched_patterns q = ["basic_selection"]
  /\ department_filter q = None
  /\ date_filter q = "none"
  /\ aggregation_type q = "none".
Proof.
  intros Hu. cbv zeta. unfold generateSQLFromNaturalLanguage.
  rewrite (unmatched_components _ Hu).
  repeat split; reflexivity.
Qed.

Lemma C10_no_match_fallback_witness :
  sql (generateSQLFromNaturalLanguage "hello" someSchema None None false) = Sql.defaultQuery.
Proof.
  refine (proj1 (C10_no_match_fallback "hello" someSchema false _)).
  repeat split; vm_compute; reflexivity.
Defined.

(** ** Claims about the entry point *)

Lemma handle_absent (name : string) (ctx : Context) (inputs : BusinessQueryInput) :
  truthyValue (lookupSchema ctx) = false ->
  handle name ctx inputs = (ctx, schemaMissing name).
Proof. intros H. unfold handle. now rewrite H. Qed.

Lemma handle_present (name : string) (ctx : Context) (inputs : BusinessQueryInput) :
  truthyValue (lookupSchema ctx) = true ->
  snd (handle name ctx inputs) =
  Success (generateSQLFromNaturalLanguage (query inputs)
             (default VNull (lookupSchema ctx)) (in_department inputs)
             (in_date_range inputs) (default false (in_debug inputs))).
Proof. intros H. unfold handle. now rewrite H. Qed.

(** C3: the call fails exactly when the context holds no schema; then the
    response is the error alone.  With a schema it succeeds with the whole
    compiled query, for every question, and a question without recognised
    vocabulary gets the default statement. *)
Theorem C3_error_iff_schema_absent (name : string) (ctx : Context)
    (inputs : BusinessQueryInput) :
  (isFailure (snd (handle name ctx inputs)) <-> truthyValue (lookupSchema ctx) = false)
  /\ (lookupSchema ctx = None -> handle name ctx inputs = (ctx, schemaMissing name))
  /\ (forall catalog, lookupSchema ctx = Some (VSchema catalog) ->
        snd (handle name ctx inputs) =
        Success (generateSQLFromNaturalLanguage (query inputs) (VSchema catalog)
                   (in_department inputs) (in_date_range inputs)
                   (default false (in_debug inputs))))
  /\ (forall catalog, lookupSchema ctx = Some (VSchema catalog) ->
        in_department inputs = None -> in_date_range inputs = None ->
        unmatched (Str.toLowerCase (query inputs)) ->
        exists q, snd (handle name ctx inputs) = Success q
                  /\ sql q = Sql.defaultQuery /\ parameters q = []).
Proof.
  repeat split.
  - destruct (truthyValue (lookupSchema ctx)) eqn:E; [| reflexivity].
    rewrite (handle_present _ _ _ E). intros [].
  - intros E. rewrite (handle_absent _ _ _ E). exact I.
  - intros E. apply handle_absent. now rewrite E.
  - intros catalog E. rewrite handle_present by (now rewrite E). now rewrite E.
  - intros catalog E Hd Hr Hu. eexists. split.
    + rewrite handle_present by (now rewrite E). reflexivity.
    + rewrite Hd, Hr. unfold generateSQLFromNaturalLanguage.
      rewrite (unmatched_components _ Hu). split; reflexivity.
Qed.

Lemma C3_error_iff_schema_absent_witness :
  handle "business-context-query" ctxWithoutVars (ask "hello")
  = (ctxWithoutVars, schemaMissing "business-context-query").
Proof.
  refine (proj1 (proj2
    (C3_error_iff_schema_absent "business-context-query" ctxWithoutVars (ask "hello"))) _).
  reflexivity.
Defined.

(** C8 as stated fails: a successful call changes the context. *)
Lemma C8_counterexample :
  ~ (forall name ctx inputs, fst (handle name ctx inputs) = ctx).
Proof.
  intros H. specialize (H "business-context-query" ctxWithSchema (ask "hello")).
  apply (f_equal (fun c => lookupVar c "generated_query")) in H.
  vm_compute in H. discriminate H.
Qed.

Lemma lookupVar_unset (ctx : Context) (k : string) :
  match vars ctx with Some vs => vs | None => ∅ end !! k = lookupVar ctx k.
Proof. unfold lookupVar. destruct (vars ctx); [reflexivity | apply lookup_empty]. Qed.

(** C8, amended: the response is a function of the inputs and of the
    schema slot alone; a failed call leaves the context as it was, and a
    successful call stores the statement and its parameters under
    [generated_query] and [query_parameters] and changes nothing else. *)
Theorem C8_effect_on_context (name : string) (ctx : Context)
    (inputs : BusinessQueryInput) :
  (forall ctx', lookupSchema ctx' = lookupSchema ctx ->
     snd (handle name ctx' inputs) = snd (handle name ctx inputs))
  /\ match snd (handle name ctx inputs) with
     | Failure _ => fst (handle name ctx inputs) = ctx
     | Success q =>
         let ctx' := fst (handle name ctx inputs) in
         request ctx' = request ctx
         /\ lookupVar ctx' "generated_query" = Some (VStr (sql q))
         /\ lookupVar ctx' "query_parameters" = Some (VArr (parameters q))
         /\ forall k, k <> "generated_query" -> k <> "query_parameters" ->
                      lookupVar ctx' k = lookupVar ctx k
     end.
Proof.
  split.
  - intros ctx' E. unfold handle. rewrite E.
    destruct (negb (truthyValue (lookupSchema ctx))); reflexivity.
  - unfold handle. destruct (negb (truthyValue (lookupSchema ctx))); cbn [fst snd].
    + reflexivity.
    + unfold lookupVar at 1 2 3. cbn [vars request]. repeat split.
      * rewrite lookup_insert_ne by discriminate. apply lookup_insert_eq.
      * apply lookup_insert_eq.
      * intros k H1 H2. rewrite !lookup_insert_ne by congruence.
        apply lookupVar_unset.
Qed.

Lemma C8_effect_on_context_witness :
  snd (handle "business-context-query" ctxWithDebris (ask "hello"))
  = snd (handle "business-context-query" ctxWithSchema (ask "hello")).
Proof.
  refine (proj1 (C8_effect_on_context "business-context-query" ctxWithSchema (ask "hello"))
            ctxWithDebris _).
  vm_compute. reflexivity.
Defined.

(** C9: two calls with the same question and overrides produce the same
    statement and the same parameters, whatever else the contexts hold and
    whichever schema and debug flag they are given; calling again on the
    context a call returned gives the same response and context. *)
Theorem C9_deterministic (name1 name2 : string) (ctx1 ctx2 : Context)
    (question : string) (explicitDepartment explicitDateRange : option string)
    (debug1 debug2 : option bool) :
  truthyValue (lookupSchema ctx1) = true ->
  truthyValue (lookupSchema ctx2) = true ->
  let inputs1 := {| query := question; in_department := explicitDepartment;
                    in_date_range := explicitDateRange; in_debug := debug1 |} in
  let inputs2 := {| query := question; in_department := explicitDepartment;
                    in_date_range := explicitDateRange; in_debug := debug2 |} in
  (exists q1 q2,
     snd (handle name1 ctx1 inputs1) = Success q1
     /\ snd (handle name2 ctx2 inputs2) = Success q2
     /\ sql q1 = sql q2 /\ parameters q1 = parameters q2)
  /\ handle name1 (fst (handle name1 ctx1 inputs1)) inputs1 = handle name1 ctx1 inputs1.
Proof.
  intros H1 H2. cbv zeta. split.
  - do 2 eexists. rewrite !handle_present by assumption.
    repeat split; reflexivity.
  - unfold handle at 2 3. rewrite H1. cbn [negb fst].
    unfold handle.
    set (q := generateSQLFromNaturalLanguage _ (default VNull (lookupSchema ctx1)) _ _ _).
    set (vs := match vars ctx1 with Some vs => vs | None => ∅ end).
    assert (lookupSchema
              {| vars := Some (<["query_parameters":=VArr (parameters q)]>
                                 (<["generated_query":=VStr (sql q)]> vs));
                 request := request ctx1 |} = lookupSchema ctx1) as Hsame.
    { unfold lookupSchema at 1. cbn [vars].
      rewrite !lookup_insert_ne by discriminate.
      unfold vs. apply (lookupVar_unset ctx1 "database_schema"). }
    rewrite Hsame, H1. cbn [negb vars request query in_department in_date_range in_debug].
    fold q. f_equal. f_equal. f_equal.
    apply map_eq. intros k.
    destruct (decide (k = "query_parameters")) as [-> | Hk1].
    { now rewrite !lookup_insert_eq. }
    rewrite !(lookup_insert_ne _ "query_parameters") by congruence.
    destruct (decide (k = "generated_query")) as [-> | Hk2].
    { now rewrite !lookup_insert_eq. }
    rewrite !(lookup_insert_ne _ "generated_query") by congruence.
    now rewrite !lookup_insert_ne by congruence.
Qed.

Lemma C9_deterministic_witness :
  exists q1 q2,
    snd (handle "a" ctxWithSchema
           {| query := "Top 5 sales deals"; in_department := None;
              in_date_range := None; in_debug := Some true |}) = Success q1
    /\ snd (handle "b" ctxWithSchema
              {| query := "Top 5 sales deals"; in_department := None;
                 in_date_range := None; in_debug := None |}) = Success q2
    /\ sql q1 = sql q2 /\ parameters q1 = parameters q2.
Proof.
  refine (proj1 (C9_deterministic "a" "b" ctxWithSchema ctxWithSchema
                   "Top 5 sales deals" None None (Some true) None _ _));
    vm_compute; reflexivity.
Defined.

(** ** Claims about the extractors *)

Lemma allDigits_app (a b : string) :
  Str.allDigits (a +:+ b) = Str.allDigits a && Str.allDigits b.
Proof. unfold Str.allDigits. rewrite chars_app. apply forallb_app. Qed.

(** Below 10^21 a number prints without exponent: digits only. *)
Lemma numberToString_digits (x : N) :
  x < 10 ^ 21 -> Str.allDigits (Num.numberToString (Fin x)) = true.
Proof.
  intros Hx. destruct x as [|p]; [reflexivity |].
  assert (0 < N.pos p) as Hpos by lia.
  destruct (numDigits_spec _ Hpos) as [Hlo Hhi].
  set (D := Num.numDigits (N.pos p)) in *.
  assert (D <= 21)%nat as HD.
  { destruct (le_lt_dec D 21) as [|Hgt]; [assumption |]. exfalso.
    assert (10 ^ 21 <= 10 ^ N.of_nat (D - 1)) as Hp
      by (apply N.pow_le_mono_r; lia).
    lia. }
  assert (exists n k s, Num.shortest (N.pos p) = (n, k, s) /\ (n <= 21)%nat)
    as (n & k & s & Hs & Hn).
  { unfold Num.shortest. cbv zeta. fold D.
    destruct (Num.roundsTo (10 ^ N.of_nat D) (N.pos p)) eqn:E.
    - exists (S D), 1%nat, 1. split; [reflexivity |].
      destruct (Nat.eq_dec D 21%nat) as [HD21 | HD21]; [| lia]. exfalso.
      rewrite HD21 in E. unfold Num.roundsTo in E.
      assert (Num.toDouble (10 ^ N.of_nat 21) = Fin (10 ^ 21)) as Ht
        by (vm_compute; reflexivity).
      rewrite Ht in E. apply N.eqb_eq in E. lia.
    - destruct (Num.shortestFrom (N.pos p) D D 1) as [[k s]|];
        [exists D, k, s | exists D, D, (N.pos p)]; split; (reflexivity || exact HD). }
  unfold Num.numberToString. rewrite Hs.
  apply Nat.leb_le in Hn. rewrite Hn.
  now rewrite allDigits_app, numeral_allDigits, zeros_allDigits.
Qed.

Lemma take_all (d : string) : Str.take (String.length d) d = d.
Proof. induction d as [|c d IH]; cbn; [reflexivity | now rewrite IH]. Qed.

(** Every run of digits after [top ] becomes the limit, whatever its size. *)
Lemma extractLimit_top (d : string) :
  Str.allDigits d = true -> d <> "" ->
  extractLimit ("top " +:+ d) = Num.toDouble (Num.digitsValue d).
Proof.
  intros Hd Hne. unfold extractLimit, limitPatterns. cbn [scanLimit].
  assert (Regex.exec [Lit "top "; CapDigits] ("top " +:+ d) = Some (Some d)) as ->.
  { change ("top " +:+ d) with (String "t" (String "o" (String "p" (String " " d)))).
    cbn [Regex.exec Regex.matchHere Str.stripPrefix].
    change (Ascii.eqb "t" "t") with true. change (Ascii.eqb "o" "o") with true.
    change (Ascii.eqb "p" "p") with true. change (Ascii.eqb " " " ") with true.
    cbv iota.
    pose proof (spanDigits_exact d "" Hd eq_refl) as Hsp.
    rewrite app_nil_r_s in Hsp. rewrite Hsp. cbn [fst].
    destruct (String.length d) as [|n] eqn:El; [destruct d; [congruence | discriminate El] |].
    cbn [Regex.greedy Regex.firstSome]. rewrite <- El, take_all. reflexivity. }
  cbn [parseCapture]. now apply parseInt_digits.
Qed.

Lemma extractLimit_origin (q : string) :
  extractLimit q = Fin 0 \/ extractLimit q = Fin 10
  \/ exists d, Str.allDigits d = true /\ d <> ""
               /\ extractLimit q = Num.toDouble (Num.digitsValue d).
Proof.
  unfold extractLimit. pose proof (scanLimit_first q) as H.
  destruct (scanLimit q limitPatterns) as [v|].
  - destruct H as (i & d & Hp & -> & _).
    destruct (numericPattern_inv _ _ _ Hp) as (Hd & Hne & _).
    right. right. exists d. repeat split; assumption.
  - destruct (Str.includes q "top" || Str.includes q "best"); [right; left | left];
      reflexivity.
Qed.

Lemma toDouble_not_NaN (n : N) : Num.toDouble n <> NaN.
Proof.
  unfold Num.toDouble. destruct (n <? 2 ^ 53); [discriminate |].
  cbv zeta. destruct (2 ^ 1024 <=? _); discriminate.
Qed.

(** C2 as stated fails: the text after LIMIT need not be a decimal
    integer; twenty-two digits already give an exponent. *)
Lemma C2_counterexample :
  ~ (forall (query : string) (departmentFilter dateRange_ : option string) (t : string),
       Sql.cl_limit
         (Sql.clausesOf
            (extractComponents (Str.toLowerCase query) departmentFilter dateRange_))
       = " LIMIT " +:+ t ->
       Str.allDigits t = true).
Proof.
  intros H.
  specialize (H "top 1000000000000000000000" None None "1e+21").
  assert (Str.allDigits "1e+21" = true) as Habs
    by (apply H; vm_compute; reflexivity).
  vm_compute in Habs. discriminate Habs.
Qed.

(** C2, amended: the limit is 0, 10 or the double nearest to a captured run
    of digits; no bound is checked and no value is dropped.  A LIMIT clause
    is written exactly when the limit is not 0; below 10^21 it is followed
    by decimal digits only, and below 2^53 by the numeral of the limit. *)
Theorem C2_limit_rendering :
  (forall (query : string) (departmentFilter dateRange_ : option string),
     let c := extractComponents (Str.toLowerCase query) departmentFilter dateRange_ in
     (limit c = Fin 0 \/ limit c = Fin 10
      \/ exists d, Str.allDigits d = true /\ d <> ""
                   /\ limit c = Num.toDouble (Num.digitsValue d))
     /\ (Sql.cl_limit (Sql.clausesOf c) = "" <-> limit c = Fin 0)
     /\ (forall n, limit c = Fin n -> 0 < n -> n < 10 ^ 21 ->
           exists t, Sql.cl_limit (Sql.clausesOf c) = " LIMIT " +:+ t
                     /\ Str.allDigits t = true)
     /\ (forall n, limit c = Fin n -> 0 < n -> n < 2 ^ 53 ->
           Sql.cl_limit (Sql.clausesOf c) = " LIMIT " +:+ Num.numeral n))
  /\ (forall d, Str.allDigits d = true -> d <> "" ->
        extractLimit ("top " +:+ d) = Num.toDouble (Num.digitsValue d)).
Proof.
  split; [| exact extractLimit_top].
  intros query departmentFilter dateRange_ c.
  pose proof (extractLimit_origin (Str.toLowerCase query)) as Ho.
  change (extractLimit (Str.toLowerCase query)) with (limit c) in Ho.
  split; [exact Ho |].
  unfold Sql.clausesOf. cbn [Sql.cl_limit].
  repeat split.
  - destruct (limit c) as [|[|p]|] eqn:El; cbn [Num.positive N.ltb N.compare];
      try discriminate; try reflexivity.
    exfalso. destruct Ho as [Ho | [Ho | (d & _ & _ & Ho)]]; try discriminate Ho.
    symmetry in Ho. now apply toDouble_not_NaN in Ho.
  - intros ->. reflexivity.
  - intros n -> Hpos Hn. apply N.ltb_lt in Hpos. cbn [Num.positive]. rewrite Hpos.
    eexists. split; [reflexivity | now apply numberToString_digits].
  - intros n -> Hpos Hn. apply N.ltb_lt in Hpos. cbn [Num.positive]. rewrite Hpos.
    now rewrite numberToString_small.
Qed.

Lemma C2_limit_rendering_witness :
  Sql.cl_limit
    (Sql.clausesOf
       (extractComponents (Str.toLowerCase "Show me our top 5 departments") None None))
  = " LIMIT " +:+ Num.numeral 5.
Proof.
  refine (proj2 (proj2 (proj2
    (proj1 C2_limit_rendering "Show me our top 5 departments" None None))) 5 _ _ _);
    vm_compute; reflexivity.
Defined.

(** C5: an explicit date range goes through [parseDateRange], which knows
    [q4] alone and builds another predicate than the rule for a question
    containing [q4]; every other value, [q1] included, becomes [custom]
    with no predicate. *)
Theorem C5_explicit_range_divergence :
  (forall q r, r <> "" -> extractDateRange q (Some r) = parseDateRange r)
  /\ (forall r,
        parseDateRange r =
          {| dr_type := "q4"; dr_sql := "EXTRACT(QUARTER FROM m.metric_date) = 4";
             dr_parameters := [] |}
        \/ parseDateRange r = {| dr_type := "custom"; dr_sql := ""; dr_parameters := [] |})
  /\ extractDateRange "" (Some "q1") = {| dr_type := "custom"; dr_sql := ""; dr_parameters := [] |}
  /\ dr_type (extractDateRange "q1" None) = "q1"
  /\ dr_sql (extractDateRange "" (Some "q4")) <> dr_sql (extractDateRange "q4" None)
  /\ sql (generateSQLFromNaturalLanguage "show metrics" someSchema None (Some "Q1") false)
     = Sql.defaultQuery
  /\ sql (generateSQLFromNaturalLanguage "show q1 metrics" someSchema None None false)
     <> Sql.defaultQuery.
Proof.
  repeat split.
  - intros q r Hr. unfold extractDateRange. cbn [truthy].
    apply String.eqb_neq in Hr. now rewrite Hr.
  - intros r. unfold parseDateRange.
    destruct (String.eqb (Str.toLowerCase r) "q4"); [left | right]; reflexivity.
  - vm_compute. discriminate.
  - vm_compute. discriminate.
Qed.

(** C6 as stated fails: [highest] is a comparison keyword, no numeric
    pattern occurs, and the limit is 0. *)
Lemma C6_counterexample :
  ~ (forall q,
       (forall i d, ~ numericPattern q i d) ->
       cmp_type (extractComparison q) <> "none" ->
       extractLimit q = Fin 10).
Proof.
  intros H. specialize (H "highest revenue").
  pose proof (scanLimit_first "highest revenue") as Hs.
  assert (scanLimit "highest revenue" limitPatterns = None) as E
    by (vm_compute; reflexivity).
  rewrite E in Hs. specialize (H Hs).
  assert (extractLimit "highest revenue" = Fin 10) as Habs
    by (apply H; vm_compute; discriminate).
  vm_compute in Habs. discriminate Habs.
Qed.

(** C6, amended: the first pattern of the table [top N], [first N],
    [N top|best|worst] that occurs in the question wins, and the limit is
    the value of the digits it captured.  An occurring pattern captures
    exactly one run of digits, that of its leftmost occurrence: all the
    digits after [top ] or [first ], or the digits from the start of the
    match to the blank before the ranking word.  When no pattern occurs
    the limit is 10 if the question contains [top] or [best], and 0
    otherwise. *)
Theorem C6_limit_rule (q : string) :
  (forall i d,
     limitCapture q i d ->
     (forall j d', (j < i)%nat -> ~ numericPattern q j d') ->
     extractLimit q = Num.toDouble (Num.digitsValue d))
  /\ (forall i d, numericPattern q i d -> exists d0, limitCapture q i d0)
  /\ (forall i d d', limitCapture q i d -> limitCapture q i d' -> d = d')
  /\ ((forall i d, ~ numericPattern q i d) ->
      extractLimit q =
      if Str.includes q "top" || Str.includes q "best" then Fin 10 else Fin 0).
Proof.
  split; [| split; [| split]].
  - intros i d. apply extractLimit_captured.
  - intros i d. apply numericPattern_captured.
  - intros i d d'. apply limitCapture_unique.
  - intros Hnone. unfold extractLimit.
    destruct (scanLimit q limitPatterns) as [v|] eqn:E; [| reflexivity].
    exfalso. apply scanLimit_capture in E as (i & d & Hc & _).
    exact (Hnone _ _ (limitCapture_numericPattern _ _ _ Hc)).
Qed.

Lemma C6_limit_rule_witness :
  limitCapture "the first 12 of our 3 best, not the first 7" 1 "12"
  /\ extractLimit "the first 12 of our 3 best, not the first 7"
     = Num.toDouble (Num.digitsValue "12").
Proof.
  assert (limitCapture "the first 12 of our 3 best, not the first 7" 1 "12") as Hc.
  { assert (Regex.exec [Lit "first "; CapDigits]
              "the first 12 of our 3 best, not the first 7" = Some (Some "12")) as E
      by (vm_compute; reflexivity).
    apply exec_capture1 in E as (d & [= <-] & Hc). exact Hc. }
  split; [exact Hc |].
  refine (proj1 (C6_limit_rule "the first 12 of our 3 best, not the first 7")
            1%nat "12" Hc _).
  intros j d' Hj. replace j with 0%nat by lia.
  pose proof (exec_pattern0 "the first 12 of our 3 best, not the first 7") as H0.
  assert (Regex.exec [Lit "top "; CapDigits]
            "the first 12 of our 3 best, not the first 7" = None) as E
    by (vm_compute; reflexivity).
  rewrite E in H0. apply H0.
Defined.

(** C7: a supplied explicit department (the caller hands over a
    department name or nothing at all, so a supplied override is a
    non-empty string) is the department filter and the first parameter,
    whatever department the question names. *)
Theorem C7_explicit_department_wins (query : string) (dbSchema : Value)
    (explicitDept : string) (dateRange_ : option string) (debug : bool) :
  explicitDept <> "" ->
  let q := generateSQLFromNaturalLanguage query dbSchema (Some explicitDept) dateRange_ debug in
  department_filter q = Some explicitDept
  /\ exists rest, parameters q = explicitDept :: rest.
Proof.
  intros Hne. cbv zeta. unfold generateSQLFromNaturalLanguage.
  cbn [department_filter parameters].
  assert (department (extractComponents (Str.toLowerCase query) (Some explicitDept) dateRange_)
          = Some explicitDept) as Hd.
  { unfold extractComponents, extractDepartment, orUndefined. cbn [department truthy].
    apply String.eqb_neq in Hne. rewrite Hne. cbn [negb truthy]. now rewrite Hne. }
  split; [exact Hd |].
  rewrite run_parameters, Hd. cbn [truthy].
  apply String.eqb_neq in Hne. rewrite Hne. cbn [negb app default].
  eexists. reflexivity.
Qed.

Lemma C7_explicit_department_wins_witness :
  department_filter
    (generateSQLFromNaturalLanguage "show me finance numbers" someSchema
       (Some "sales") None false) = Some "sales".
Proof.
  refine (proj1 (C7_explicit_department_wins "show me finance numbers" someSchema
                   "sales" None false _)).
  discriminate.
Defined.

(** * Further properties of the compiler *)

(** ** Keywords *)

Lemma includes_occursIn (s kw : string) :
  Str.includes s kw = true <-> occursIn kw s.
Proof.
  split.
  - induction s as [|c s IH]; cbn [Str.includes].
    + destruct (Str.stripPrefix kw "") as [rest|] eqn:E; [| discriminate].
      intros _. exists "", rest. change ("" = kw +:+ rest).
      apply stripPrefix_sound, E.
    + destruct (Str.stripPrefix kw (String c s)) as [rest|] eqn:E.
      * intros _. exists "", rest. change (String c s = kw +:+ rest).
        apply stripPrefix_sound, E.
      * intros H. destruct (IH H) as (pre & post & ->).
        exists (String c pre), post. reflexivity.
  - intros (pre & post & ->). induction pre as [|c pre IH].
    + cbn [String.append]. destruct (kw +:+ post) eqn:E; cbn [Str.includes];
        rewrite <- E, stripPrefix_complete; reflexivity.
    + change (String c pre +:+ kw +:+ post) with (String c (pre +:+ kw +:+ post)).
      cbn [Str.includes]. rewrite IH. now destruct (Str.stripPrefix kw _).
Qed.

Lemma includes_absent (s kw : string) :
  Str.includes s kw = false <-> ~ occursIn kw s.
Proof.
  rewrite <- includes_occursIn. destruct (Str.includes s kw); split; congruence.
Qed.

Lemma existsb_occursIn (q : string) (keywords : list string) :
  existsb (Str.includes q) keywords = true <->
  exists k, In k keywords /\ occursIn k q.
Proof.
  rewrite existsb_exists. split; intros (k & Hk & H); exists k; split;
    try assumption; now apply includes_occursIn.
Qed.

(** ** Department inference *)

Lemma scanDepartments_first (q : string) (table : list (string * list string)) (d : string) :
  scanDepartments q table = Some d <->
  exists before keywords rest,
    table = before ++ (d, keywords) :: rest
    /\ (exists k, In k keywords /\ occursIn k q)
    /\ forall d' keywords' k,
         In (d', keywords') before -> In k keywords' -> ~ occursIn k q.
Proof.
  induction table as [|[d0 kws0] table IH]; cbn [scanDepartments].
  - split; [discriminate |]. intros (before & kws & rest & H & _).
    now destruct before.
  - destruct (existsb (Str.includes q) kws0) eqn:E.
    + apply existsb_occursIn in E. split.
      * intros [= <-]. exists [], kws0, table. repeat split; [exact E |].
        intros d' kws' k [].
      * intros (before & kws & rest & Ht & Hk & Hnone).
        destruct before as [|[d1 kws1] before]; cbn in Ht.
        -- now injection Ht as -> _ _.
        -- injection Ht as <- <- _. exfalso.
           destruct E as (k & Hin & Hocc).
           exact (Hnone d0 kws0 k (or_introl eq_refl) Hin Hocc).
    + assert (forall k, In k kws0 -> ~ occursIn k q) as Hno.
      { intros k Hin Hocc.
        assert (existsb (Str.includes q) kws0 = true) as Ht
          by (apply existsb_occursIn; eauto).
        congruence. }
      rewrite IH. split.
      * intros (before & kws & rest & -> & Hk & Hnone).
        exists ((d0, kws0) :: before), kws, rest. repeat split; [exact Hk |].
        intros d' kws' k [[= <- <-] | Hin]; [apply Hno | now apply (Hnone d')].
      * intros (before & kws & rest & Ht & Hk & Hnone).
        destruct before as [|[d1 kws1] before]; cbn in Ht.
        -- injection Ht as <- <- _. exfalso.
           destruct Hk as (k & Hin & Hocc). exact (Hno k Hin Hocc).
        -- injection Ht as _ _ ->. exists before, kws, rest.
           repeat split; [exact Hk |].
           intros d' kws' k Hin. apply (Hnone d'). now right.
Qed.

Lemma scanDepartments_none (q : string) (table : list (string * list string)) :
  scanDepartments q table = None <->
  forall d keywords k, In (d, keywords) table -> In k keywords -> ~ occursIn k q.
Proof.
  induction table as [|[d0 kws0] table IH]; cbn [scanDepartments].
  - split; [intros _ d kws k [] | reflexivity].
  - destruct (existsb (Str.includes q) kws0) eqn:E.
    + apply existsb_occursIn in E as (k & Hin & Hocc). split; [discriminate |].
      intros H. exfalso. exact (H d0 kws0 k (or_introl eq_refl) Hin Hocc).
    + rewrite IH. split.
      * intros H d kws k [[= <- <-] | Hin] Hk Hocc.
        -- assert (existsb (Str.includes q) kws0 = true) as Ht
             by (apply existsb_occursIn; eauto).
           congruence.
        -- exact (H d kws k Hin Hk Hocc).
      * intros H d kws k Hin. apply (H d). now right.
Qed.

Lemma scanDepartments_code (q d : string) :
  scanDepartments q departmentPatterns = Some d -> In d departmentCodes.
Proof.
  intros H. apply scanDepartments_first in H as (before & kws & rest & Ht & _).
  unfold departmentCodes. rewrite Ht, map_app, in_app_iff. right. now left.
Qed.

(** X1: without an explicit override the department is that of the first
    row of the keyword table with a keyword occurring in the question,
    whatever the position of the keywords in the question; it is one of
    the six codes, and there is none exactly when no keyword occurs. *)
Theorem department_is_first_row_with_keyword (q : string) :
  (forall d,
     extractDepartment q None = Some d <->
     exists before keywords rest,
       departmentPatterns = before ++ (d, keywords) :: rest
       /\ (exists k, In k keywords /\ occursIn k q)
       /\ forall d' keywords' k,
            In (d', keywords') before -> In k keywords' -> ~ occursIn k q)
  /\ (extractDepartment q None = None <->
      forall d keywords k,
        In (d, keywords) departmentPatterns -> In k keywords -> ~ occursIn k q)
  /\ (forall d, extractDepartment q None = Some d -> In d departmentCodes).
Proof.
  unfold extractDepartment. cbn [truthy].
  split; [intros d; apply scanDepartments_first |].
  split; [apply scanDepartments_none |].
  intros d. apply scanDepartments_code.
Qed.

(** ** Metric names *)

Lemma scanMetrics_filter (q : string) (table : list (string * list string)) :
  forall found,
    scanMetrics q table found =
    found ++ concat (map snd (List.filter (fun p => Str.includes q (fst p)) table)).
Proof.
  induction table as [|[k ms] table IH]; intros found; cbn [scanMetrics List.filter fst].
  - now rewrite app_nil_r.
  - destruct (Str.includes q k); rewrite IH; [| reflexivity].
    cbn [map concat snd]. now rewrite app_assoc.
Qed.

Lemma concat_filter_sublist {A B : Type} (f : A -> list B) (P : A -> bool) (l : list A) :
  concat (map f (List.filter P l)) `sublist_of` concat (map f l).
Proof.
  induction l as [|x l IH]; cbn [List.filter map concat]; [constructor |].
  destruct (P x); cbn [map concat].
  - now apply sublist_app.
  - now apply sublist_inserts_l.
Qed.

Lemma extractMetrics_sublist (q : string) :
  extractMetrics q `sublist_of` metricVocabulary.
Proof.
  unfold extractMetrics. rewrite scanMetrics_filter. cbn [app].
  apply concat_filter_sublist.
Qed.

(** X2: the metric names bound for a question are those of the keywords
    occurring in it and no others; they come in the order of the table,
    each at most once, so there are never more than ten. *)
Theorem metrics_follow_keywords (q : string) :
  (forall m,
     In m (extractMetrics q) <->
     exists keyword names,
       In (keyword, names) metricPatterns /\ occursIn keyword q /\ In m names)
  /\ extractMetrics q `sublist_of` metricVocabulary
  /\ NoDup (extractMetrics q)
  /\ (length (extractMetrics q) <= 10)%nat.
Proof.
  pose proof (extractMetrics_sublist q) as Hsub. revert Hsub.
  unfold extractMetrics. rewrite scanMetrics_filter. cbn [app]. intros Hsub.
  repeat split.
  - intros H. apply in_concat in H as (names & Hn & Hm).
    apply in_map_iff in Hn as ([k ms] & <- & Hf).
    apply filter_In in Hf as [Hin Hinc]. cbn in Hinc, Hm.
    exists k, ms. repeat split; try assumption. now apply includes_occursIn.
  - intros (k & ms & Hin & Hocc & Hm). apply in_concat. exists ms. split; [| exact Hm].
    apply in_map_iff. exists (k, ms). split; [reflexivity |].
    apply filter_In. split; [exact Hin |]. now apply includes_occursIn.
  - exact Hsub.
  - eapply sublist_NoDup; [| exact Hsub].
    apply (bool_decide_unpack _). vm_compute. reflexivity.
  - apply sublist_length in Hsub. exact Hsub.
Qed.

(** ** What the statement depends on *)

Lemma imap_ignores_elements {A B C : Type} (f : nat -> C) (l1 : list A) :
  forall (l2 : list B), length l1 = length l2 ->
    imap (fun i _ => f i) l1 = imap (fun i _ => f i) l2.
Proof.
  revert f. induction l1 as [|x l1 IH]; intros f [|y l2] H; try discriminate H;
    [reflexivity |].
  cbn [imap]. f_equal. apply (IH (f ∘ S)). now injection H.
Qed.

Lemma truthy_iff (o1 o2 : option string) :
  truthy o1 = truthy o2 ->
  (if truthy o1 then false else true) = (if truthy o2 then false else true).
Proof. now intros ->. Qed.

(** The clauses are fixed by the aggregation, the presence of a
    department, the date range, the number of metric names, the comparison
    and the limit. *)
Lemma clausesOf_shape (c1 c2 : Components) :
  aggregation c1 = aggregation c2 ->
  truthy (department c1) = truthy (department c2) ->
  dr_sql (dateRange c1) = dr_sql (dateRange c2) ->
  dr_parameters (dateRange c1) = dr_parameters (dateRange c2) ->
  length (metrics c1) = length (metrics c2) ->
  comparison c1 = comparison c2 ->
  limit c1 = limit c2 ->
  Sql.clausesOf c1 = Sql.clausesOf c2.
Proof.
  intros Ha Hd Hr Hp Hm Hc Hl. unfold Sql.clausesOf. cbv zeta.
  assert (b_where (Assemble.metricFilter c1
            (Assemble.dateFilter c1 (Assemble.departmentFilter c1 Assemble.start)))
          = b_where (Assemble.metricFilter c2
              (Assemble.dateFilter c2 (Assemble.departmentFilter c2 Assemble.start))))
    as Hw.
  { assert (forall k,
              imap (fun index (_ : string) => placeholder (k + index + 1)) (metrics c1)
              = imap (fun index (_ : string) => placeholder (k + index + 1)) (metrics c2))
      as Himap
      by (intros k; apply (imap_ignores_elements
                             (fun index => placeholder (k + index + 1)) _ _ Hm)).
    unfold Assemble.metricFilter.
    rewrite !dateFilter_parameters, !departmentFilter_parameters.
    unfold Assemble.dateFilter, Assemble.departmentFilter.
    rewrite <- Hd, <- Hr, <- Hp, <- Hm.
    destruct (truthy (department c1));
      destruct (negb (String.eqb (dr_sql (dateRange c1)) ""));
      destruct (0 <? length (metrics c1))%nat;
      cbn [b_where b_parameters Assemble.start app length]; try reflexivity;
      rewrite ?length_app; cbn [length]; now rewrite Himap. }
  rewrite Hw. unfold Assemble.selectClause.
  rewrite <- Ha, <- Hc, <- Hl, (truthy_iff _ _ Hd). reflexivity.
Qed.

(** X3: the text of an override never reaches the statement.  Two calls
    on the same question whose department overrides are both given or both
    missing, and whose date-range overrides are both missing, both [q4] or
    both something else, produce the same SQL text; a given department is
    bound as the first parameter. *)
Theorem overrides_stay_out_of_sql (query : string) (schema1 schema2 : Value)
    (dept1 dept2 range1 range2 : option string) (debug1 debug2 : bool) :
  truthy dept1 = truthy dept2 ->
  truthy range1 = truthy range2 ->
  String.eqb (Str.toLowerCase (default "" range1)) "q4"
  = String.eqb (Str.toLowerCase (default "" range2)) "q4" ->
  let q1 := generateSQLFromNaturalLanguage query schema1 dept1 range1 debug1 in
  let q2 := generateSQLFromNaturalLanguage query schema2 dept2 range2 debug2 in
  sql q1 = sql q2
  /\ length (parameters q1) = length (parameters q2)
  /\ (truthy dept1 = true ->
      exists rest, parameters q1 = default "" dept1 :: rest
                   /\ parameters q2 = default "" dept2 :: rest).
Proof.
  intros Hd Hr Hq. cbv zeta. unfold generateSQLFromNaturalLanguage.
  cbn [sql parameters].
  set (c1 := extractComponents (Str.toLowerCase query) dept1 range1).
  set (c2 := extractComponents (Str.toLowerCase query) dept2 range2).
  assert (dateRange c1 = dateRange c2) as Hrange.
  { unfold c1, c2, extractComponents. cbn [dateRange]. unfold extractDateRange.
    rewrite <- Hr. destruct (truthy range1); [| reflexivity].
    unfold parseDateRange. now rewrite Hq. }
  assert (truthy (department c1) = truthy (department c2)) as Hdept.
  { unfold c1, c2, extractComponents. cbn [department].
    rewrite !orUndefined_truthy. unfold extractDepartment. rewrite <- Hd.
    destruct (truthy dept1) eqn:E; [now rewrite <- Hd | reflexivity]. }
  assert (metrics c1 = metrics c2) as Hm by reflexivity.
  split.
  - rewrite !run_render. f_equal.
    apply clausesOf_shape; try reflexivity; try assumption; now rewrite Hrange.
  - rewrite !run_parameters, <- Hdept, <- Hrange, <- Hm. split.
    + rewrite !length_app. f_equal. now destruct (truthy (department c1)).
    + intros Ht.
      assert (department c1 = dept1 /\ department c2 = dept2) as [E1 E2].
      { unfold c1, c2, extractComponents, extractDepartment, orUndefined.
        cbn [department]. rewrite <- Hd, Ht. now rewrite <- Hd, Ht. }
      assert (truthy (department c1) = true) as Ht1 by now rewrite E1.
      rewrite Ht1, E1, E2. eexists. split; reflexivity.
Qed.

Lemma overrides_stay_out_of_sql_witness :
  sql (generateSQLFromNaturalLanguage "total revenue" someSchema
         (Some "sales") (Some "Q4") false)
  = sql (generateSQLFromNaturalLanguage "total revenue" VNull
           (Some "x'; DROP TABLE metrics; --") (Some "q4") true).
Proof.
  refine (proj1 (overrides_stay_out_of_sql "total revenue" someSchema VNull
                   (Some "sales") (Some "x'; DROP TABLE metrics; --")
                   (Some "Q4") (Some "q4") false true _ _ _));
    vm_compute; reflexivity.
Defined.

(** ** The pattern trail *)

Lemma filters_matched (c : Components) (b : Builder) :
  b_matched (Assemble.metricFilter c
               (Assemble.dateFilter c (Assemble.departmentFilter c b)))
  = b_matched b
    ++ (if truthy (department c) then ["department_filter"] else [])
    ++ (if negb (String.eqb (dr_sql (dateRange c)) "")
        then ["date_filter_" +:+ dr_type (dateRange c)] else [])
    ++ (if (0 <? length (metrics c))%nat then ["metric_filter"] else []).
Proof.
  unfold Assemble.metricFilter, Assemble.dateFilter, Assemble.departmentFilter.
  destruct (truthy (department c));
    destruct (negb (String.eqb (dr_sql (dateRange c)) ""));
    destruct (0 <? length (metrics c))%nat;
    cbn [b_matched]; rewrite <- ?app_assoc, ?app_nil_r; reflexivity.
Qed.

Lemma tail_matched (c : Components) (b : Builder) :
  b_matched (Assemble.limitClause c
               (Assemble.orderByClause c (Assemble.groupByClause c (Assemble.whereClause b))))
  = b_matched b
    ++ (if negb (String.eqb (cmp_type (comparison c)) "none")
        then ["comparison_" +:+ cmp_type (comparison c)] else [])
    ++ (if Num.positive (limit c) then ["limit_results"] else []).
Proof.
  unfold Assemble.limitClause, Assemble.orderByClause, Assemble.groupByClause,
    Assemble.whereClause.
  destruct (0 <? length (b_where b))%nat;
    destruct (negb (String.eqb (agg_type (aggregation c)) "none"));
    destruct (negb (String.eqb (cmp_type (comparison c)) "none"));
    destruct (Num.positive (limit c));
    cbn [b_matched]; rewrite <- ?app_assoc, ?app_nil_r; reflexivity.
Qed.

(** The trail: one tag per clause that was written, in the order of the
    clauses. *)
Lemma run_matched (c : Components) :
  b_matched (Assemble.run c)
  = [selectionTag c]
    ++ (if truthy (department c) then ["department_filter"] else [])
    ++ (if negb (String.eqb (dr_sql (dateRange c)) "")
        then ["date_filter_" +:+ dr_type (dateRange c)] else [])
    ++ (if (0 <? length (metrics c))%nat then ["metric_filter"] else [])
    ++ (if negb (String.eqb (cmp_type (comparison c)) "none")
        then ["comparison_" +:+ cmp_type (comparison c)] else [])
    ++ (if Num.positive (limit c) then ["limit_results"] else []).
Proof.
  unfold Assemble.run. rewrite tail_matched, filters_matched.
  assert (b_matched (Assemble.fromClause (Assemble.selectClause c Assemble.start))
          = [selectionTag c]) as ->.
  { unfold Assemble.fromClause, Assemble.selectClause, selectionTag.
    destruct (String.eqb (agg_type (aggregation c)) "none"); reflexivity. }
  now rewrite <- !app_assoc.
Qed.

Lemma In_optional (b : bool) (x t : string) :
  In t (if b then [x] else []) <-> b = true /\ x = t.
Proof. destruct b; cbn; intuition congruence. Qed.

Ltac trail_membership :=
  rewrite !in_app_iff, !In_optional; cbn [In]; unfold selectionTag;
  split;
  [ intros H; decompose [or and] H; clear H; subst;
    repeat match goal with
      | H : context [if ?b then _ else _] |- _ => destruct b eqn:?
      | H : _ +:+ _ = _ |- _ => cbn in H
      end;
    try discriminate; try contradiction; try reflexivity; try assumption
  | intros H; rewrite ?H; tauto ].

(** X4: the pattern trail agrees with the statement.  It begins with the
    tag of the SELECT clause and holds between one and six tags;
    [department_filter] is in it exactly when a department is bound,
    [metric_filter] exactly when metric names are bound, [limit_results]
    exactly when there is a LIMIT clause, and [basic_selection] exactly
    when nothing is aggregated. *)
Theorem trail_agrees_with_statement (query : string) (dbSchema : Value)
    (departmentFilter dateRange_ : option string) (debug : bool) :
  let q := generateSQLFromNaturalLanguage query dbSchema departmentFilter dateRange_ debug in
  let c := extractComponents (Str.toLowerCase query) departmentFilter dateRange_ in
  (exists rest, matched_patterns q = selectionTag c :: rest /\ (length rest <= 5)%nat)
  /\ (In "department_filter" (matched_patterns q) <-> department_filter q <> None)
  /\ (In "metric_filter" (matched_patterns q) <-> metrics c <> [])
  /\ (In "limit_results" (matched_patterns q) <-> Sql.cl_limit (Sql.clausesOf c) <> "")
  /\ (In "basic_selection" (matched_patterns q) <-> aggregation_type q = "none").
Proof.
  cbv zeta. unfold generateSQLFromNaturalLanguage.
  cbn [matched_patterns department_filter aggregation_type].
  set (c := extractComponents (Str.toLowerCase query) departmentFilter dateRange_).
  rewrite run_matched.
  assert (truthy (department c) = true <-> department c <> None) as Hdept.
  { unfold c, extractComponents. cbn [department]. rewrite orUndefined_truthy.
    unfold orUndefined.
    destruct (extractDepartment (Str.toLowerCase query) departmentFilter) as [d|];
      cbn [truthy]; [destruct (negb (String.eqb d "")) |]; split; congruence. }
  assert ((0 <? length (metrics c))%nat = true <-> metrics c <> []) as Hmet.
  { destruct (metrics c); cbn; split; congruence. }
  assert (Num.positive (limit c) = true <-> Sql.cl_limit (Sql.clausesOf c) <> "") as Hlim.
  { unfold Sql.clausesOf. cbn [Sql.cl_limit].
    destruct (Num.positive (limit c)); split; try congruence; discriminate. }
  assert (String.eqb (agg_type (aggregation c)) "none" = true
          <-> agg_type (aggregation c) = "none") as Hagg by apply String.eqb_eq.
  split.
  { eexists. split; [reflexivity |]. rewrite !length_app.
    repeat match goal with
      | |- context [if ?b then _ else _] => destruct b
      end; cbn; lia. }
  rewrite <- Hdept, <- Hmet, <- Hlim, <- Hagg.
  split; [trail_membership |].
  split; [trail_membership |].
  split; [trail_membership |].
  trail_membership.
Qed.

(** ** Ordering and grouping *)

Lemma extractAggregation_cases (q : string) :
  extractAggregation q = {| agg_type := "sum"; agg_function := "SUM" |}
  \/ extractAggregation q = {| agg_type := "avg"; agg_function := "AVG" |}
  \/ extractAggregation q = {| agg_type := "count"; agg_function := "COUNT" |}
  \/ extractAggregation q = {| agg_type := "growth"; agg_function := "SUM" |}
  \/ extractAggregation q = {| agg_type := "none"; agg_function := "" |}.
Proof. unfold extractAggregation. split_ifs; tauto. Qed.

Lemma extractComparison_cases (q : string) :
  extractComparison q = {| cmp_type := "top"; cmp_direction := "DESC" |}
  \/ extractComparison q = {| cmp_type := "bottom"; cmp_direction := "ASC" |}
  \/ extractComparison q = {| cmp_type := "none"; cmp_direction := "" |}.
Proof. unfold extractComparison. split_ifs; tauto. Qed.

(** X5: when the question ranks (a comparison keyword was found) the
    statement orders by a column of its own SELECT clause - the raw metric
    value, or the alias of the aggregate - descending for [top] and
    ascending for [bottom]. *)
Theorem ranking_orders_by_selected_column (query : string)
    (departmentFilter dateRange_ : option string) :
  let c := extractComponents (Str.toLowerCase query) departmentFilter dateRange_ in
  cmp_type (comparison c) <> "none" ->
  exists column direction,
    Sql.cl_orderBy (Sql.clausesOf c) = " ORDER BY " +:+ column +:+ " " +:+ direction
    /\ occursIn column (Sql.cl_select (Sql.clausesOf c))
    /\ ((cmp_type (comparison c) = "top" /\ direction = "DESC")
        \/ (cmp_type (comparison c) = "bottom" /\ direction = "ASC")).
Proof.
  cbv zeta. unfold extractComponents, Sql.clausesOf.
  cbn [comparison aggregation Sql.cl_orderBy Sql.cl_select].
  unfold buildOrderBy, Assemble.selectClause, buildAggregationSelect.
  cbn [Assemble.start b_sql].
  destruct (extractComparison_cases (Str.toLowerCase query)) as [-> | [-> | ->]];
    cbn [cmp_type cmp_direction]; intros Hc; try contradiction;
    destruct (extractAggregation_cases (Str.toLowerCase query))
      as [-> | [-> | [-> | [-> | ->]]]];
    cbn [agg_type agg_function];
    eexists; eexists; (split; [reflexivity |]);
    (split; [apply includes_occursIn; vm_compute; reflexivity | tauto]).
Qed.

Lemma ranking_orders_by_selected_column_witness :
  exists column direction,
    Sql.cl_orderBy (Sql.clausesOf
      (extractComponents (Str.toLowerCase "Lowest average satisfaction") None None))
    = " ORDER BY " +:+ column +:+ " " +:+ direction
    /\ occursIn column (Sql.cl_select (Sql.clausesOf
         (extractComponents (Str.toLowerCase "Lowest average satisfaction") None None)))
    /\ ((cmp_type (comparison
           (extractComponents (Str.toLowerCase "Lowest average satisfaction") None None))
         = "top" /\ direction = "DESC")
        \/ (cmp_type (comparison
              (extractComponents (Str.toLowerCase "Lowest average satisfaction") None None))
            = "bottom" /\ direction = "ASC")).
Proof.
  refine (ranking_orders_by_selected_column "Lowest average satisfaction" None None _).
  vm_compute. discriminate.
Defined.

(** X6: an aggregated question without comparison keyword is ordered by
    [m.metric_date], a column that its SELECT clause does not produce and
    its GROUP BY clause does not list. *)
Theorem aggregate_without_ranking_orders_by_date (query : string)
    (departmentFilter dateRange_ : option string) :
  let c := extractComponents (Str.toLowerCase query) departmentFilter dateRange_ in
  agg_type (aggregation c) <> "none" ->
  cmp_type (comparison c) = "none" ->
  Sql.cl_orderBy (Sql.clausesOf c) = " ORDER BY m.metric_date DESC"
  /\ ~ occursIn "metric_date" (Sql.cl_select (Sql.clausesOf c))
  /\ ~ occursIn "metric_date" (Sql.cl_groupBy (Sql.clausesOf c))
  /\ Sql.cl_groupBy (Sql.clausesOf c) <> "".
Proof.
  cbv zeta. unfold extractComponents, Sql.clausesOf.
  cbn [comparison aggregation department Sql.cl_orderBy Sql.cl_select Sql.cl_groupBy].
  unfold buildOrderBy, buildGroupBy, Assemble.selectClause, buildAggregationSelect.
  cbn [Assemble.start b_sql].
  intros Ha Hc. apply String.eqb_eq in Hc. rewrite Hc.
  split; [reflexivity |].
  destruct (truthy (orUndefined _));
    destruct (extractAggregation_cases (Str.toLowerCase query))
      as [E | [E | [E | [E | E]]]];
    rewrite E in Ha |- *; cbn [agg_type agg_function] in Ha |- *;
    try contradiction;
    (split; [apply includes_absent; vm_compute; reflexivity |]);
    (split; [apply includes_absent; vm_compute; reflexivity | vm_compute; discriminate]).
Qed.

Lemma aggregate_without_ranking_orders_by_date_witness :
  Sql.cl_orderBy (Sql.clausesOf
    (extractComponents (Str.toLowerCase "total pipeline this year") None None))
  = " ORDER BY m.metric_date DESC".
Proof.
  refine (proj1 (aggregate_without_ranking_orders_by_date
                   "total pipeline this year" None None _ _));
    vm_compute; (discriminate || reflexivity).
Defined.

(** ** Limits and comparisons *)

Lemma occursIn_longer (kw pre post s : string) :
  s = pre +:+ kw +:+ post -> occursIn kw s.
Proof. intros ->. now exists pre, post. Qed.

Lemma occursIn_prefix (kw more s : string) :
  occursIn (kw +:+ more) s -> occursIn kw s.
Proof.
  intros (pre & post & ->). exists pre, (more +:+ post). now rewrite app_assoc_s.
Qed.

(** X7: a question without comparison keyword gets a LIMIT clause only
    from the pattern [first N]; the patterns [top N] and [N top|best|worst]
    and the default of 10 always come with a ranking. *)
Theorem limit_without_ranking_is_first_N (q : string) :
  cmp_type (extractComparison q) = "none" ->
  Num.positive (extractLimit q) = true ->
  exists d, numericPattern q 1 d
            /\ extractLimit q = Num.toDouble (Num.digitsValue d).
Proof.
  intros Hc Hpos.
  assert (~ occursIn "top" q /\ ~ occursIn "best" q /\ ~ occursIn "worst" q)
    as (Htop & Hbest & Hworst).
  { unfold extractComparison in Hc. rewrite <- !includes_absent.
    destruct (Str.includes q "top"), (Str.includes q "best"),
      (Str.includes q "highest"), (Str.includes q "bottom"),
      (Str.includes q "worst"); cbn in Hc; try discriminate Hc; repeat split. }
  unfold extractLimit in *. pose proof (scanLimit_first q) as H.
  destruct (scanLimit q limitPatterns) as [v|].
  - destruct H as (i & d & Hp & -> & _).
    inversion Hp as [pre d' post Hq | pre d' post Hq | pre d' w post Hq Hw]; subst.
    + exfalso. apply Htop. apply (occursIn_prefix "top" " ").
      now exists pre, (d +:+ post).
    + exists d. split; [exact Hp | reflexivity].
    + exfalso.
      assert (occursIn w (pre +:+ d +:+ " " +:+ w +:+ post)) as Hocc.
      { exists (pre +:+ d +:+ " "), post. now rewrite !app_assoc_s. }
      destruct Hw as [<- | [<- | [<- | []]]]; tauto.
  - apply includes_absent in Htop, Hbest. rewrite Htop, Hbest in Hpos.
    discriminate Hpos.
Qed.

Lemma limit_without_ranking_is_first_N_witness :
  exists d, numericPattern "first 3 records" 1 d
            /\ extractLimit "first 3 records" = Num.toDouble (Num.digitsValue d).
Proof.
  refine (limit_without_ranking_is_first_N "first 3 records" _ _);
    vm_compute; reflexivity.
Defined.

(** ** Letter case *)

Lemma lowerChar_idempotent (c : ascii) : Str.lowerChar (Str.lowerChar c) = Str.lowerChar c.
Proof. destruct c as [[] [] [] [] [] [] [] []]; reflexivity. Qed.

Lemma toLowerCase_idempotent (s : string) :
  Str.toLowerCase (Str.toLowerCase s) = Str.toLowerCase s.
Proof.
  induction s as [|c s IH]; [reflexivity |].
  cbn [Str.toLowerCase]. now rewrite lowerChar_idempotent, IH.
Qed.

(** X8: the compiler does not look at the letter case of the question nor
    of the date-range override: two questions with the same lower-case
    form compile to the same query, a question compiles like its lower-case
    form, and so does a date range. *)
Theorem compile_ignores_letter_case (query1 query2 : string) (dbSchema : Value)
    (departmentFilter : option string) (range : string) (debug : bool) :
  Str.toLowerCase query1 = Str.toLowerCase query2 ->
  generateSQLFromNaturalLanguage query1 dbSchema departmentFilter (Some range) debug
  = generateSQLFromNaturalLanguage query2 dbSchema departmentFilter
      (Some (Str.toLowerCase range)) debug
  /\ generateSQLFromNaturalLanguage query1 dbSchema departmentFilter None debug
     = generateSQLFromNaturalLanguage (Str.toLowerCase query2) dbSchema
         departmentFilter None debug.
Proof.
  intros H. unfold generateSQLFromNaturalLanguage.
  rewrite toLowerCase_idempotent, H.
  assert (extractComponents (Str.toLowerCase query2) departmentFilter (Some range)
          = extractComponents (Str.toLowerCase query2) departmentFilter
              (Some (Str.toLowerCase range))) as ->; [| split; reflexivity].
  unfold extractComponents. f_equal. unfold extractDateRange. cbn [truthy].
  change (default "" (Some range)) with range.
  change (default "" (Some (Str.toLowerCase range))) with (Str.toLowerCase range).
  assert (String.eqb (Str.toLowerCase range) "" = String.eqb range "") as ->.
  { destruct range; reflexivity. }
  unfold parseDateRange. now rewrite toLowerCase_idempotent.
Qed.

Lemma compile_ignores_letter_case_witness :
  generateSQLFromNaturalLanguage "TOP 5 Sales Deals" someSchema None (Some "Q4") false
  = generateSQLFromNaturalLanguage "top 5 sales deals" someSchema None (Some "q4") false.
Proof.
  refine (proj1 (compile_ignores_letter_case "TOP 5 Sales Deals" "top 5 sales deals"
                   someSchema None "Q4" false _)).
  vm_compute. reflexivity.
Defined.

(** ** Whole numbers *)

Lemma last_char (a b : string) (x y : ascii) :
  a +:+ String x "" = b +:+ String y "" -> x = y.
Proof.
  intros H. apply (f_equal Str.chars) in H. rewrite !chars_app in H.
  cbn in H. now apply app_inj_tail in H as [_ ->].
Qed.

Lemma ranked_extend (alts : list string) (c : ascii) (rest : string) :
  Str.isDigit c = true ->
  Regex.matchHere [CapDigits; Lit " "; AltLit alts] rest None <> None ->
  Regex.matchHere [CapDigits; Lit " "; AltLit alts] (String c rest) None <> None.
Proof.
  intros Hc Hm.
  destruct (Regex.matchHere _ rest None) as [cap|] eqn:E; [| congruence].
  apply ranked_sound in E as (d & w & post & _ & -> & Hw & Hd & Hne).
  change (String c (d +:+ " " +:+ w +:+ post))
    with (String c d +:+ " " +:+ w +:+ post).
  apply ranked_complete; [exact Hw | | discriminate].
  unfold Str.allDigits in *. cbn [Str.chars list_ascii_of_string forallb].
  now rewrite Hc.
Qed.

(** X9: the limit is always read from a whole number of the question:
    the digits taken are neither preceded nor followed by a further digit. *)
Theorem limit_reads_whole_number (q : string) (v : number) :
  scanLimit q limitPatterns = Some v ->
  exists pre d post,
    q = pre +:+ d +:+ post
    /\ Str.allDigits d = true /\ d <> ""
    /\ Sql.startsWithDigit post = false
    /\ (forall pre0 c, pre = pre0 +:+ String c "" -> Str.isDigit c = false)
    /\ v = Num.toDouble (Num.digitsValue d).
Proof.
  unfold limitPatterns. cbn [scanLimit].
  destruct (Regex.exec [Lit "top "; CapDigits] q) as [cap|] eqn:E0.
  { intros [= <-]. apply exec_sound in E0 as (pre & rest & -> & Hm).
    apply literal_digits_whole in Hm as (d & post & -> & -> & Hd & Hne & Hp).
    exists (pre +:+ "top "), d, post. rewrite app_assoc_s.
    repeat split; try assumption; [| now apply parseInt_digits].
    intros pre0 c H. change "top " with ("top" +:+ String " " "") in H.
    rewrite <- app_assoc_s in H. apply last_char in H as <-. reflexivity. }
  destruct (Regex.exec [Lit "first "; CapDigits] q) as [cap|] eqn:E1.
  { intros [= <-]. apply exec_sound in E1 as (pre & rest & -> & Hm).
    apply literal_digits_whole in Hm as (d & post & -> & -> & Hd & Hne & Hp).
    exists (pre +:+ "first "), d, post. rewrite app_assoc_s.
    repeat split; try assumption; [| now apply parseInt_digits].
    intros pre0 c H. change "first " with ("first" +:+ String " " "") in H.
    rewrite <- app_assoc_s in H. apply last_char in H as <-. reflexivity. }
  destruct (Regex.exec [CapDigits; Lit " "; AltLit ["top"; "best"; "worst"]] q)
    as [cap|] eqn:E2; [| discriminate].
  intros [= <-]. apply exec_leftmost in E2 as (pre & rest & -> & Hm & Hleft).
  pose proof Hm as Hm'.
  apply ranked_sound in Hm as (d & w & post & -> & -> & Hw & Hd & Hne).
  exists pre, d, (" " +:+ w +:+ post).
  repeat split; try assumption; [| now apply parseInt_digits].
  intros pre0 c ->. destruct (Str.isDigit c) eqn:Ec; [exfalso | reflexivity].
  apply (ranked_extend ["top"; "best"; "worst"] c (d +:+ " " +:+ w +:+ post) Ec);
    [congruence |].
  apply (Hleft pre0 (String c "")); [reflexivity | discriminate].
Qed.

Lemma limit_reads_whole_number_witness :
  exists pre d post,
    "the 1234 best of 2024" = pre +:+ d +:+ post
    /\ Str.allDigits d = true /\ d <> ""
    /\ Sql.startsWithDigit post = false
    /\ (forall pre0 c, pre = pre0 +:+ String c "" -> Str.isDigit c = false)
    /\ Fin 1234 = Num.toDouble (Num.digitsValue d).
Proof.
  refine (limit_reads_whole_number "the 1234 best of 2024" (Fin 1234) _).
  vm_compute. reflexivity.
Defined.

(** ** Parameters *)

(** X10: every bound parameter is the caller's department override or a
    word of the compiler's own vocabulary (a department code or a metric
    name), and there are at most eleven parameters. *)
Theorem parameters_come_from_vocabulary (query : string) (dbSchema : Value)
    (departmentFilter dateRange_ : option string) (debug : bool) :
  let q := generateSQLFromNaturalLanguage query dbSchema departmentFilter dateRange_ debug in
  (forall p, In p (parameters q) ->
     departmentFilter = Some p \/ In p departmentCodes \/ In p metricVocabulary)
  /\ (length (parameters q) <= 11)%nat.
Proof.
  cbv zeta. unfold generateSQLFromNaturalLanguage. cbn [parameters].
  rewrite run_parameters.
  set (c := extractComponents (Str.toLowerCase query) departmentFilter dateRange_).
  assert (dr_parameters (dateRange c) = []) as Hr by apply extractDateRange_parameters.
  rewrite Hr.
  assert ((if negb (String.eqb (dr_sql (dateRange c)) "") then [] else [])
          = @nil string) as -> by now destruct (negb _).
  cbn [app].
  pose proof (extractMetrics_sublist (Str.toLowerCase query)) as Hsub.
  pose proof (extractMetrics_length (Str.toLowerCase query)) as Hlen.
  split.
  - intros p Hp. apply in_app_or in Hp as [Hp | Hp].
    + destruct (truthy (department c)) eqn:Et; [| destruct Hp].
      destruct Hp as [<- | []].
      unfold c, extractComponents in Et |- *. cbn [department] in Et |- *.
      rewrite orUndefined_truthy in Et. unfold orUndefined. rewrite Et.
      unfold extractDepartment in Et |- *.
      destruct (truthy departmentFilter) eqn:Ef.
      * left. destruct departmentFilter; [reflexivity | discriminate Ef].
      * right. left.
        destruct (scanDepartments (Str.toLowerCase query) departmentPatterns)
          as [d|] eqn:Es; [| discriminate Et].
        cbn [default]. exact (scanDepartments_code _ _ Es).
    + right. right. change (metrics c) with (extractMetrics (Str.toLowerCase query)) in Hp.
      apply list_elem_of_In. eapply elem_of_sublist; [| exact Hsub].
      now apply list_elem_of_In.
  - rewrite length_app.
    change (metrics c) with (extractMetrics (Str.toLowerCase query)).
    destruct (truthy (department c)); cbn [length]; lia.
Qed.

(** ** Explicit date ranges other than [q4] *)

Lemma occursIn_app_l (kw a b : string) : occursIn kw a -> occursIn kw (a +:+ b).
Proof.
  intros (pre & post & ->). exists pre, (post +:+ b). now rewrite !app_assoc_s.
Qed.

Lemma occursIn_app_r (kw a b : string) : occursIn kw b -> occursIn kw (a +:+ b).
Proof.
  intros (pre & post & ->). exists (a +:+ pre), post. now rewrite !app_assoc_s.
Qed.

Lemma explanation_names_custom (c : Components) (patterns : list string) :
  dr_type (dateRange c) = "custom" ->
  occursIn " filtered by custom" (generateExplanation c patterns).
Proof.
  intros H. unfold generateExplanation. cbv zeta. rewrite H.
  change (negb (String.eqb "custom" "none")) with true.
  change (Str.replaceFirst "_" " " "custom") with "custom". cbv iota.
  apply occursIn_app_l.
  destruct (negb (String.eqb (cmp_type (comparison c)) "none"));
    [apply occursIn_app_l |]; apply occursIn_app_r; now exists "", "".
Qed.

(** X11: an explicit date range other than [q4] filters nothing: the
    statement and its parameters are those compiled with the date range
    taken out and the trail has no date tag, yet the result reports the
    date filter [custom] and the explanation says "filtered by custom". *)
Theorem custom_date_range_filters_nothing (query : string) (dbSchema : Value)
    (departmentFilter : option string) (range : string) (debug : bool) :
  range <> "" -> Str.toLowerCase range <> "q4" ->
  let q := generateSQLFromNaturalLanguage query dbSchema departmentFilter (Some range) debug in
  let c := extractComponents (Str.toLowerCase query) departmentFilter (Some range) in
  date_filter q = "custom"
  /\ occursIn " filtered by custom" (explanation q)
  /\ (forall t, ~ In ("date_filter_" +:+ t) (matched_patterns q))
  /\ sql q = b_sql (Assemble.run (withoutDateRange c))
  /\ parameters q = b_parameters (Assemble.run (withoutDateRange c)).
Proof.
  intros Hne Hq4. cbv zeta. unfold generateSQLFromNaturalLanguage.
  cbn [date_filter explanation matched_patterns sql parameters].
  set (c := extractComponents (Str.toLowerCase query) departmentFilter (Some range)).
  assert (dateRange c = {| dr_type := "custom"; dr_sql := ""; dr_parameters := [] |})
    as Hr.
  { unfold c, extractComponents. cbn [dateRange]. unfold extractDateRange.
    cbn [truthy]. apply String.eqb_neq in Hne. rewrite Hne. cbn [negb].
    change (default "" (Some range)) with range. unfold parseDateRange.
    apply String.eqb_neq in Hq4. now rewrite Hq4. }
  split; [now rewrite Hr |].
  split; [apply explanation_names_custom; now rewrite Hr |].
  split.
  - intros t. rewrite run_matched, Hr. cbn [dr_sql dr_type negb String.eqb app].
    unfold selectionTag. intros H.
    destruct H as [H | H];
      [destruct (String.eqb (agg_type (aggregation c)) "none"); cbn in H; discriminate H |].
    repeat (apply in_app_or in H as [H | H]);
      repeat match goal with
        | H : In _ (if ?b then _ else _) |- _ => destruct b
        end;
      cbn in H; intuition discriminate.
  - split.
    + rewrite !run_render. f_equal.
      apply clausesOf_shape; try reflexivity; now rewrite Hr.
    + rewrite !run_parameters. cbn [withoutDateRange department dateRange metrics].
      now rewrite Hr.
Qed.

Lemma custom_date_range_filters_nothing_witness :
  date_filter
    (generateSQLFromNaturalLanguage "sales revenue" someSchema None (Some "last_month") false)
  = "custom".
Proof.
  refine (proj1 (custom_date_range_filters_nothing "sales revenue" someSchema None
                   "last_month" false _ _)); vm_compute; discriminate.
Defined.

(** ** What the executor finds in the context *)

(** X12: after a successful call the context holds, under
    [generated_query] and [query_parameters], a statement and a list of
    values that fit each other: the placeholders of the statement are
    [$1 .. $n] with [n] the number of stored values.  Earlier values under
    these two names are replaced. *)
Theorem stored_query_fits_stored_parameters (name : string) (ctx : Context)
    (inputs : BusinessQueryInput) :
  truthyValue (lookupSchema ctx) = true ->
  let ctx' := fst (handle name ctx inputs) in
  exists statement values,
    lookupVar ctx' "generated_query" = Some (VStr statement)
    /\ lookupVar ctx' "query_parameters" = Some (VArr values)
    /\ Sql.placeholders statement = Sql.upTo (length values)
    /\ snd (handle name ctx inputs)
       = Success (generateSQLFromNaturalLanguage (query inputs)
                    (default VNull (lookupSchema ctx)) (in_department inputs)
                    (in_date_range inputs) (default false (in_debug inputs)))
    /\ lookupSchema ctx' = lookupSchema ctx.
Proof.
  intros H. cbv zeta. unfold handle. rewrite H. cbn [negb fst snd].
  set (q := generateSQLFromNaturalLanguage _ _ _ _ _).
  exists (sql q), (parameters q).
  split; [unfold lookupVar; cbn [vars];
          rewrite lookup_insert_ne by discriminate; apply lookup_insert_eq |].
  split; [unfold lookupVar; cbn [vars]; apply lookup_insert_eq |].
  split; [apply run_settled, extractComponents_vetted |].
  split; [reflexivity |].
  unfold lookupSchema at 1. cbn [vars].
  rewrite !lookup_insert_ne by discriminate.
  apply (lookupVar_unset ctx "database_schema").
Qed.

Lemma stored_query_fits_stored_parameters_witness :
  exists statement values,
    lookupVar (fst (handle "n" ctxWithDebris (ask "total pipeline")))
      "generated_query" = Some (VStr statement)
    /\ lookupVar (fst (handle "n" ctxWithDebris (ask "total pipeline")))
         "query_parameters" = Some (VArr values)
    /\ Sql.placeholders statement = Sql.upTo (length values).
Proof.
  destruct (stored_query_fits_stored_parameters "n" ctxWithDebris (ask "total pipeline"))
    as (s & v & H1 & H2 & H3 & _); [vm_compute; reflexivity |].
  exists s, v. repeat split; assumption.
Defined.

(** ** The database-config node *)

Section DbConfigFacts.

Variable Number : Type.
Variable truthyNumber : Number -> bool.
Variable parseInt : string -> Number.

Local Abbreviation configOf := (DbConfig.buildConfig Number truthyNumber parseInt).
Local Abbreviation handleConfig := (DbConfig.handle Number truthyNumber parseInt).

Lemma orElse_nonempty (a : option string) (b : string) :
  b <> "" -> DbConfig.orElse a b <> "".
Proof.
  intros Hb. unfold DbConfig.orElse. destruct a as [s|]; cbn [truthy]; [| exact Hb].
  change (default "" (Some s)) with s.
  destruct (String.eqb_spec s ""); cbn [negb]; cbv iota; assumption.
Qed.

(** Host, database and user always have a value. *)
Lemma config_fields_present (env : gmap string string)
    (inputs : DbConfig.DatabaseConfigInput Number) :
  DbConfig.host Number (configOf env inputs) <> ""
  /\ DbConfig.database Number (configOf env inputs) <> ""
  /\ DbConfig.user Number (configOf env inputs) <> "".
Proof.
  unfold DbConfig.buildConfig, DbConfig.envOr. cbn.
  repeat split; repeat apply orElse_nonempty; discriminate.
Qed.

Lemma validate_only_port (env : gmap string string)
    (inputs : DbConfig.DatabaseConfigInput Number) :
  DbConfig.password Number (configOf env inputs) <> "" ->
  DbConfig.validateDatabaseConnection Number truthyNumber (configOf env inputs)
  = if truthyNumber (DbConfig.port Number (configOf env inputs)) then None
    else Some "Database connection validation failed: Database configuration missing required field: port".
Proof.
  intros Hp. destruct (config_fields_present env inputs) as (Hh & Hd & Hu).
  unfold DbConfig.validateDatabaseConnection, DbConfig.requiredFields.
  cbn [DbConfig.firstMissing]. unfold DbConfig.fieldTruthy.
  cbn [String.eqb Ascii.eqb Bool.eqb andb].
  apply String.eqb_neq in Hh, Hd, Hu, Hp. rewrite Hh, Hd, Hu, Hp. cbn [negb].
  now destruct (truthyNumber _).
Qed.

(** X13: the node fails exactly when [DB_PASSWORD] is unset or empty, or
    when validation is asked for and the port is zero or not a number; a
    failure leaves the context as it was and carries code 500 with the
    message of the case.  Host, database and user never make it fail. *)
Theorem config_fails_on_password_or_port (name : string) (env : gmap string string)
    (ctx : DbConfig.NodeContext Number) (inputs : DbConfig.DatabaseConfigInput Number) :
  let missingPassword := String.eqb (default "" (env !! "DB_PASSWORD")) "" in
  let badPort :=
    default false (DbConfig.validate_connection Number inputs)
    && negb (truthyNumber (DbConfig.port Number (configOf env inputs))) in
  (missingPassword = true ->
   handleConfig name env ctx inputs =
   (ctx, DbConfig.failure Number name
           "Database password is required. Please set DB_PASSWORD environment variable."))
  /\ (missingPassword = false -> badPort = true ->
      handleConfig name env ctx inputs =
      (ctx, DbConfig.failure Number name
              "Database connection validation failed: Database configuration missing required field: port"))
  /\ (missingPassword = false -> badPort = false ->
      exists ctx' answer,
        handleConfig name env ctx inputs = (ctx', DbConfig.Success Number answer)).
Proof.
  cbv zeta.
  assert (DbConfig.password Number (configOf env inputs) = default "" (env !! "DB_PASSWORD"))
    as Hpw.
  { unfold DbConfig.buildConfig, DbConfig.envOr, DbConfig.orElse. cbn [DbConfig.password].
    destruct (env !! "DB_PASSWORD") as [s|]; cbn [truthy]; [| reflexivity].
    change (default "" (Some s)) with s.
    destruct (String.eqb_spec s ""); cbn [negb]; cbv iota; congruence. }
  unfold DbConfig.handle. cbv zeta. rewrite Hpw.
  split; [intros ->; reflexivity |].
  split; intros E; rewrite E;
    (rewrite validate_only_port by (rewrite Hpw; now apply String.eqb_neq));
    destruct (default false (DbConfig.validate_connection Number inputs));
    cbn [andb]; try discriminate;
    try (destruct (truthyNumber _); cbn [negb]; try discriminate);
    intros _; try reflexivity; eauto.
Qed.

(** X14: a successful call answers with the configuration in which the
    password is replaced by a fixed mask, and stores the configuration
    with the real password, the one of [DB_PASSWORD], under
    [database_config]; the other slots of the context are kept. *)
Theorem config_response_hides_password (name : string) (env : gmap string string)
    (ctx ctx' : DbConfig.NodeContext Number) (inputs : DbConfig.DatabaseConfigInput Number)
    (answer : DbConfig.DatabaseConfig Number) :
  handleConfig name env ctx inputs = (ctx', DbConfig.Success Number answer) ->
  let config := configOf env inputs in
  DbConfig.password Number answer = "***CONFIGURED***"
  /\ DbConfig.host Number answer = DbConfig.host Number config
  /\ DbConfig.port Number answer = DbConfig.port Number config
  /\ DbConfig.database Number answer = DbConfig.database Number config
  /\ DbConfig.user Number answer = DbConfig.user Number config
  /\ DbConfig.ssl Number answer = DbConfig.ssl Number config
  /\ DbConfig.slot Number ctx' "database_config" = Some (DbConfig.Config Number config)
  /\ env !! "DB_PASSWORD" = Some (DbConfig.password Number config)
  /\ DbConfig.password Number config <> ""
  /\ forall k, k <> "database_config" ->
       DbConfig.slot Number ctx' k = DbConfig.slot Number ctx k.
Proof.
  cbv zeta. unfold DbConfig.handle. cbv zeta.
  destruct (String.eqb_spec (DbConfig.password Number (configOf env inputs)) "")
    as [E | E]; [discriminate |].
  destruct (if default false (DbConfig.validate_connection Number inputs) then _ else None);
    [discriminate |].
  intros [= <- <-]. cbn [DbConfig.password DbConfig.host DbConfig.port
                          DbConfig.database DbConfig.user DbConfig.ssl].
  repeat split; try exact E.
  - unfold DbConfig.slot. cbn [DbConfig.cvars]. apply lookup_insert_eq.
  - revert E. unfold DbConfig.buildConfig, DbConfig.envOr, DbConfig.orElse.
    cbn [DbConfig.password].
    destruct (env !! "DB_PASSWORD") as [s|]; cbn [truthy]; [| congruence].
    change (default "" (Some s)) with s.
    destruct (String.eqb_spec s ""); cbn [negb]; cbv iota; congruence.
  - intros k Hk. unfold DbConfig.slot. cbn [DbConfig.cvars].
    rewrite lookup_insert_ne by congruence.
    destruct (DbConfig.cvars Number ctx); [reflexivity | apply lookup_empty].
Qed.

End DbConfigFacts.

Lemma config_fails_on_password_or_port_witness :
  DbConfig.handle number Num.positive Num.parseInt "database-config"
    {[ "DB_PASSWORD" := "s3cret"; "DB_PORT" := "none" ]}
    {| DbConfig.cvars := None |}
    {| DbConfig.database_name := None; DbConfig.host_override := None;
       DbConfig.port_override := None; DbConfig.validate_connection := Some true |}
  = ({| DbConfig.cvars := None |},
     DbConfig.failure number "database-config"
       "Database connection validation failed: Database configuration missing required field: port").
Proof.
  refine (proj1 (proj2 (config_fails_on_password_or_port number Num.positive Num.parseInt
    "database-config"
    {[ "DB_PASSWORD" := "s3cret"; "DB_PORT" := "none" ]}
    {| DbConfig.cvars := None |}
    {| DbConfig.database_name := None; DbConfig.host_override := None;
       DbConfig.port_override := None; DbConfig.validate_connection := Some true |}))
    _ _); vm_compute; reflexivity.
Defined.

Lemma config_response_hides_password_witness :
  DbConfig.password number
    {| DbConfig.host := "localhost"; DbConfig.port := Fin 5432;
       DbConfig.database := "analytics_demo"; DbConfig.user := "postgres";
       DbConfig.password := "***CONFIGURED***"; DbConfig.ssl := false |}
  = "***CONFIGURED***".
Proof.
  refine (proj1 (config_response_hides_password number Num.positive Num.parseInt
    "database-config" {[ "DB_PASSWORD" := "s3cret" ]}
    {| DbConfig.cvars := None |}
    {| DbConfig.cvars := Some {[ "database_config" :=
         DbConfig.Config number
           {| DbConfig.host := "localhost"; DbConfig.port := Fin 5432;
              DbConfig.database := "analytics_demo"; DbConfig.user := "postgres";
              DbConfig.password := "s3cret"; DbConfig.ssl := false |} ]} |}
    {| DbConfig.database_name := None; DbConfig.host_override := None;
       DbConfig.port_override := None; DbConfig.validate_connection := Some true |}
    _ _)).
  vm_compute. reflexivity.
Defined.
